(** * personal-ai-skills: source resolution, fetching and bridge files

    A shallow embedding of the source resolver of the CLI
    ([parseSource], [parseGitHubUrl], [fetchFromGitHub], [fetchFromUrl],
    [fetchFromLocal], [fetchSkill]) and of the automatic bridge-file
    generation ([autoGenerateBridgeFiles]), with the properties the
    specification states about them.

    JavaScript strings are modelled by [string]; every character class the
    code tests is an ASCII one.  Network, file system, the platform [URL]
    class and the imported frontmatter parser are fields of a [World]
    record; asynchronous functions return the trace of their external
    requests together with their outcome. *)

From stdpp Require Import base option list strings gmap pretty.
From Stdlib Require Import Ascii String.

Local Open Scope string_scope.

(** Let [simpl] compute appends to literals and to [String c s]. *)
#[local] Arguments String.append !_ _ /.

(** ** JavaScript string primitives used by the source *)

Module Js.

(** [s.startsWith(pre)] *)
Fixpoint startsWith (s pre : string) {struct pre} : bool :=
  match pre with
  | "" => true
  | String p pre' =>
      match s with
      | "" => false
      | String c s' => Ascii.eqb c p && startsWith s' pre'
      end
  end.

(** [s.includes(pat)] *)
Fixpoint includes (s pat : string) : bool :=
  startsWith s pat ||
  match s with
  | "" => false
  | String _ s' => includes s' pat
  end.

(** [s.slice(n)] *)
Fixpoint drop (n : nat) (s : string) : string :=
  match n, s with
  | S n', String _ s' => drop n' s'
  | _, _ => s
  end.

(** [s.replace(pat, rep)] with a string pattern: only the first
    occurrence is replaced ([rep] holds no [$] pattern in the source). *)
Fixpoint replace (s pat rep : string) : string :=
  if startsWith s pat then rep +:+ drop (String.length pat) s
  else match s with
       | "" => ""
       | String c s' => String c (replace s' pat rep)
       end.

(** [s.replace(/suf$/, "")] for a literal [suf]: the regular expression
    is anchored at the end of the input, so it removes [suf] when it is a
    suffix of [s] and leaves [s] alone otherwise. *)
Fixpoint removeAtEnd (s suf : string) : string :=
  if String.eqb s suf then ""
  else match s with
       | "" => ""
       | String c s' => String c (removeAtEnd s' suf)
       end.

(** [s.split(sep)] for a one-character separator; the result is never
    empty (["".split("/")] is [[""]]). *)
Fixpoint split (sep : ascii) (s : string) : list string :=
  match s with
  | "" => [""]
  | String c s' =>
      if Ascii.eqb c sep then "" :: split sep s'
      else match split sep s' with
           | seg :: segs => String c seg :: segs
           | [] => [String c ""]
           end
  end.

(** [parts.join(sep)] *)
Fixpoint join (sep : string) (parts : list string) : string :=
  match parts with
  | [] => ""
  | [p] => p
  | p :: rest => p +:+ sep +:+ join sep rest
  end.

(** Truthiness of a string: only the empty string is falsy. *)
Definition truthy (s : string) : bool := negb (String.eqb s "").

(** [parts.filter(Boolean)] on an array of strings. *)
Definition filterBoolean (parts : list string) : list string :=
  List.filter truthy parts.

(** [a || b] where [a] may be [undefined]. *)
Definition orElse (a : option string) (b : string) : string :=
  match a with
  | Some s => if truthy s then s else b
  | None => b
  end.

(** [\w]: ASCII letters, digits and the underscore. *)
Definition isWordChar (c : ascii) : bool :=
  let n := nat_of_ascii c in
  (Nat.leb 48 n && Nat.leb n 57) || (Nat.leb 65 n && Nat.leb n 90)
  || (Nat.leb 97 n && Nat.leb n 122) || Nat.eqb n 95.

(** The class [[\w-]]. *)
Definition isWordOrHyphen (c : ascii) : bool :=
  isWordChar c || Ascii.eqb c "-".

(** Longest prefix of [s] in the class [[\w-]], and the rest. *)
Fixpoint spanWord (s : string) : string * string :=
  match s with
  | "" => ("", "")
  | String c s' =>
      if isWordOrHyphen c
      then let '(w, r) := spanWord s' in (String c w, r)
      else ("", s)
  end.

(** [/^[\w-]+\/[\w-]+$/.test(s)].  The slash is outside the class, so the
    greedy runs are the only way to match and no backtracking arises. *)
Definition testOwnerRepo (s : string) : bool :=
  let '(o, r) := spanWord s in
  truthy o &&
  match r with
  | String "/" r' =>
      let '(n, r'') := spanWord r' in
      truthy n && String.eqb r'' ""
  | _ => false
  end.

(** [/^[\w-]+\/[\w-]+\//.test(s)] *)
Definition testOwnerRepoPath (s : string) : bool :=
  let '(o, r) := spanWord s in
  truthy o &&
  match r with
  | String "/" r' =>
      let '(n, r'') := spanWord r' in
      truthy n && startsWith r'' "/"
  | _ => false
  end.

(** Every character of [s] satisfies [P]. *)
Fixpoint all (P : ascii → bool) (s : string) : bool :=
  match s with
  | "" => true
  | String c s' => P c && all P s'
  end.

(** [s] holds no ["/"]. *)
Definition noSlash (s : string) : bool :=
  all (λ c, negb (Ascii.eqb c "/")) s.

(** A non-empty run of characters of the class [[\w-]]. *)
Definition isWord (s : string) : bool :=
  truthy s && all isWordOrHyphen s.

(** A non-empty path segment. *)
Definition isSegment (s : string) : bool :=
  truthy s && noSlash s.

End Js.

(** ** Node's POSIX [path] module, as far as the source uses it *)

Module Path.

(** One step of [normalizeString], on whole segments: empty and ["."]
    segments vanish, [".."] removes the previous segment when there is one
    that is not itself [".."], and is kept only above a relative root. *)
Definition normalizeStep (allowAboveRoot : bool)
    (acc : list string) (seg : string) : list string :=
  if String.eqb seg "" || String.eqb seg "." then acc
  else if String.eqb seg ".." then
    match last acc with
    | Some top =>
        if String.eqb top ".."
        then (if allowAboveRoot then (acc ++ [".."])%list else acc)
        else removelast acc
    | None => if allowAboveRoot then [".."] else []
    end
  else (acc ++ [seg])%list.

Definition normalizeString (p : string) (allowAboveRoot : bool) : string :=
  Js.join "/" (fold_left (normalizeStep allowAboveRoot) (Js.split "/" p) []).

(** [path.resolve(p)] in a process whose working directory is the
    absolute path [cwd]. *)
Definition resolve (cwd p : string) : string :=
  let full :=
    if String.eqb p "" then cwd +:+ "/"
    else if Js.startsWith p "/" then p +:+ "/"
    else cwd +:+ "/" +:+ p +:+ "/" in
  "/" +:+ normalizeString full false.

Definition endsWithSlash (p : string) : bool :=
  match last (list_ascii_of_string p) with
  | Some c => Ascii.eqb c "/"
  | None => false
  end.

(** [path.normalize(p)] *)
Definition normalize (p : string) : string :=
  if String.eqb p "" then "."
  else
    let isAbsolute := Js.startsWith p "/" in
    let trailing := endsWithSlash p in
    let r := normalizeString p (negb isAbsolute) in
    if String.eqb r "" then
      (if isAbsolute then "/" else if trailing then "./" else ".")
    else
      (if isAbsolute then "/" else "") +:+ r +:+ (if trailing then "/" else "").

(** [path.join(a, b)] *)
Definition join (a b : string) : string :=
  let joined :=
    if String.eqb a "" then b
    else if String.eqb b "" then a
    else a +:+ "/" +:+ b in
  if String.eqb joined "" then "." else normalize joined.

(** [path.basename(p)]: the last run of characters other than the
    separator, trailing separators ignored; empty when there is none. *)
Definition basename (p : string) : string :=
  default "" (last (Js.filterBoolean (Js.split "/" p))).

End Path.

(** ** Data model (types.ts) *)

(** [{ type: "github", owner, repo, branch?, path? }] *)
Record GitHubSource := {
  owner : string;
  repo : string;
  branch : option string;
  path : option string;
}.

(** The tagged union [ContentSource]; a url source holds its [url], a local
    source its [path]. *)
Inductive ContentSource :=
| github (source : GitHubSource)
| url (url : string)
| local (path : string).

Module Skill.
(** [FetchedSkill] *)
Record FetchedSkill := {
  id : string;
  name : string;
  description : string;
  content : string;
  source : ContentSource;
}.
End Skill.

(** JavaScript exceptions: [new Error(message)], the [TypeError] of the
    platform ([new URL], a rejected [fetch]) and the system error of a failed
    [readFile]. *)
Inductive JsError :=
| Error (message : string)
| TypeError (message : string)
| SystemError (path : string).

Inductive Result (A : Type) :=
| Ok (a : A)
| Throw (e : JsError).
Arguments Ok {A} a.
Arguments Throw {A} e.

(** ** The world outside the module *)

(** What the code reads of a [Response]. *)
Record Response := {
  ok : bool;
  status : N;
  text : string;
}.

(** The two keys [fetchSkill] reads of the parsed frontmatter. *)
Record Frontmatter := {
  fm_name : option string;
  fm_description : option string;
}.

(** - [fetch u]: the response to a GET of [u]; [None] when the promise
      rejects (network error, invalid URL);
    - [readFile p]: the content of the file at [p]; [None] when the read
      rejects;
    - [cwd]: the working directory of the process;
    - [URL_pathname s]: [new URL(s).pathname]; [None] when the constructor
      throws;
    - [parseFrontmatter]: the function imported from [catalog.js], kept
      abstract: [fetchSkill] only reads two keys of its result. *)
Record World := {
  fetch : string → option Response;
  readFile : string → option string;
  cwd : string;
  URL_pathname : string → option string;
  parseFrontmatter : string → Frontmatter;
}.

(** External requests, in the order they are issued. *)
Inductive Event :=
| EFetch (url : string)
| EReadFile (path : string).

(** An asynchronous computation, run to completion: the requests it issued
    and its outcome. *)
Definition IO (A : Type) : Type := list Event * Result A.

Definition trace {A} (m : IO A) : list Event := m.1.
Definition outcome {A} (m : IO A) : Result A := m.2.

#[global] Instance IO_ret : MRet IO := λ A a, ([], Ok a).

#[global] Instance IO_bind : MBind IO := λ A B f m,
  match m with
  | (t, Ok a) => let '(t', r) := f a in ((t ++ t')%list, r)
  | (t, Throw e) => (t, Throw e)
  end.

Definition throw {A} (e : JsError) : IO A := ([], Throw e).

(** [try { m } catch { h }] *)
Definition tryCatch {A} (m : IO A) (h : IO A) : IO A :=
  match m with
  | (t, Throw _) => let '(t', r) := h in ((t ++ t')%list, r)
  | _ => m
  end.

(** A synchronous result inside an asynchronous function. *)
Definition liftResult {A} (r : Result A) : IO A := ([], r).

Definition await_fetch (w : World) (u : string) : IO Response :=
  ([EFetch u],
   match fetch w u with
   | Some r => Ok r
   | None => Throw (TypeError "fetch failed")
   end).

Definition await_readFile (w : World) (p : string) : IO string :=
  ([EReadFile p],
   match readFile w p with
   | Some c => Ok c
   | None => Throw (SystemError p)
   end).

(** ** URL parsing (github.ts) *)

(** Parse GitHub URL into GitHubSource.  [pathParts[0]] and [pathParts[1]]
    exist after the length check; [pathParts[3]] is [undefined] when the
    array has three elements. *)
Definition parseGitHubUrl (w : World) (url : string) : Result GitHubSource :=
  match URL_pathname w url with
  | None => Throw (TypeError "Invalid URL")
  | Some pathname =>
      let pathParts := Js.filterBoolean (Js.split "/" pathname) in
      if Nat.ltb (List.length pathParts) 2
      then Throw (Error ("Invalid GitHub URL: " +:+ url))
      else
        let owner := default "" (pathParts !! 0%nat) in
        let repo := default "" (pathParts !! 1%nat) in
        let treeOrBlob :=
          Nat.ltb 2 (List.length pathParts) &&
          match pathParts !! 2%nat with
          | Some p => String.eqb p "tree" || String.eqb p "blob"
          | None => false
          end in
        let branch := if treeOrBlob then pathParts !! 3%nat else None in
        let skillPath :=
          if treeOrBlob && Nat.ltb 4 (List.length pathParts)
          then Some (Js.removeAtEnd (Js.join "/" (List.skipn 4 pathParts)) "/SKILL.md")
          else None in
        Ok {| owner := owner; repo := repo; branch := branch; path := skillPath |}
  end.

(** Parse source string into ContentSource. *)
Definition parseSource (w : World) (source : string) : Result ContentSource :=
  if Js.startsWith source "/" || Js.startsWith source "./"
     || Js.startsWith source "../"
  then Ok (local source)
  else if Js.includes source "github.com" then
    match parseGitHubUrl w source with
    | Ok g => Ok (github g)
    | Throw e => Throw e
    end
  else if Js.testOwnerRepo source then
    let parts := Js.split "/" source in
    Ok (github {| owner := default "" (parts !! 0%nat);
                  repo := default "" (parts !! 1%nat);
                  branch := None; path := None |})
  else if Js.testOwnerRepoPath source then
    let parts := Js.split "/" source in
    Ok (github {| owner := default "" (parts !! 0%nat);
                  repo := default "" (parts !! 1%nat);
                  branch := None;
                  path := Some (Js.join "/" (List.skipn 2 parts)) |})
  else if Js.startsWith source "http://" || Js.startsWith source "https://"
  then Ok (url source)
  else Throw (Error ("Unable to parse source: " +:+ source)).

(** ** Fetching functions (github.ts) *)

(** [source.path ? `${source.path}/SKILL.md` : "SKILL.md"] *)
Definition skillFilePath (source : GitHubSource) : string :=
  match path source with
  | Some p => if Js.truthy p then p +:+ "/SKILL.md" else "SKILL.md"
  | None => "SKILL.md"
  end.

(** The raw-content URL of [source] on the branch [b]. *)
Definition rawUrlOn (source : GitHubSource) (b : string) : string :=
  "https://raw.githubusercontent.com/" +:+ owner source +:+ "/"
    +:+ repo source +:+ "/" +:+ b +:+ "/" +:+ skillFilePath source.

Definition effectiveBranch (source : GitHubSource) : string :=
  Js.orElse (branch source) "main".

Definition rawUrl (source : GitHubSource) : string :=
  rawUrlOn source (effectiveBranch source).

Definition masterUrl (source : GitHubSource) : string :=
  Js.replace (rawUrl source) "/main/" "/master/".

(** Fetch content from GitHub. *)
Definition fetchFromGitHub (w : World) (source : GitHubSource) : IO string :=
  response ← await_fetch w (rawUrl source);
  if negb (ok response) then
    let failed : IO string :=
      throw (Error ("Failed to fetch from GitHub: " +:+ pretty (status response))) in
    if String.eqb (effectiveBranch source) "main" then
      masterResponse ← await_fetch w (masterUrl source);
      if ok masterResponse then mret (text masterResponse) else failed
    else failed
  else mret (text response).

(** Fetch content from URL. *)
Definition fetchFromUrl (w : World) (u : string) : IO string :=
  response ← await_fetch w u;
  if negb (ok response)
  then throw (Error ("Failed to fetch from URL: " +:+ pretty (status response)))
  else mret (text response).

(** Fetch content from local path. *)
Definition fetchFromLocal (w : World) (p : string) : IO string :=
  let resolvedPath := Path.resolve (cwd w) p in
  let skillPath := Path.join resolvedPath "SKILL.md" in
  tryCatch (await_readFile w skillPath) (await_readFile w resolvedPath).

(** [arr.pop()] read as a value: the last element, if any. *)
Definition pop (parts : list string) : option string := last parts.

(** Derive ID from source (the second half of [fetchSkill]). *)
Definition deriveId (w : World) (source : ContentSource) : Result string :=
  match source with
  | github g =>
      Ok (Js.orElse (p ← path g; pop (Js.split "/" p)) (repo g))
  | local p => Ok (Path.basename p)
  | url u =>
      match URL_pathname w u with
      | None => Throw (TypeError "Invalid URL")
      | Some pathname =>
          Ok (Js.orElse (pop (Js.filterBoolean (Js.split "/" pathname))) "skill")
      end
  end.

(** Fetch skill from any source. *)
Definition fetchSkill (w : World) (source : ContentSource) : IO Skill.FetchedSkill :=
  content ← match source with
            | github g => fetchFromGitHub w g
            | url u => fetchFromUrl w u
            | local p => fetchFromLocal w p
            end;
  let frontmatter := parseFrontmatter w content in
  id ← liftResult (deriveId w source);
  mret {| Skill.id := id;
          Skill.name := Js.orElse (fm_name frontmatter) id;
          Skill.description := Js.orElse (fm_description frontmatter) "";
          Skill.content := content;
          Skill.source := source |}.

(** Fetch skill from source string. *)
Definition fetchSkillFromSource (w : World) (sourceStr : string) : IO Skill.FetchedSkill :=
  source ← liftResult (parseSource w sourceStr);
  fetchSkill w source.

(** ** Bridge files (cli.ts, bridge.ts) *)

(** One candidate bridge file, as [generateBridgeFiles] returns it. *)
Record BridgeFile := {
  filePath : string;
  bridgeContent : string;
  bridgeDescription : string;
}.

(** [{ written, skipped }] *)
Record WriteResult := {
  written : list string;
  skipped : list string;
}.

(** Where a candidate file is written under [root]. *)
Definition bridgeDest (root : string) (f : BridgeFile) : string :=
  Path.join root (filePath f).

(** Modelled from the spec: the body of [writeBridgeFiles], which bridge.ts
    defines and cli.ts only imports.  "For each candidate file, if it
    already exists and [overwrite] is false, skip it and report it as
    skipped; otherwise write it and report it as written."  The file system
    is a finite map from paths to contents. *)
Fixpoint writeBridgeFiles (files : list BridgeFile) (root : string)
    (overwrite : bool) (fs : gmap string string) : gmap string string * WriteResult :=
  match files with
  | [] => (fs, {| written := []; skipped := [] |})
  | f :: rest =>
      let dest := bridgeDest root f in
      if bool_decide (is_Some (fs !! dest)) && negb overwrite then
        let '(fs', r) := writeBridgeFiles rest root overwrite fs in
        (fs', {| written := written r; skipped := filePath f :: skipped r |})
      else
        let '(fs', r) :=
          writeBridgeFiles rest root overwrite (<[dest := bridgeContent f]> fs) in
        (fs', {| written := filePath f :: written r; skipped := skipped r |})
  end.

Section AutoBridge.

(** The parts of bridge.ts that cli.ts relies on without fixing them:
    the assistant records, the generator of candidate files (which may read
    the disk) and the default of the [root] parameter of
    [writeBridgeFiles]. *)
Variable AssistantConfig : Type.
Variable generateBridgeFiles :
  gmap string string → list AssistantConfig → list BridgeFile.
Variable defaultRoot : string.

(** Auto-generate bridge files after a successful install: the call
    [writeBridgeFiles(files)] leaves [root] and [overwrite] to their
    defaults.  Returns the disk and the lines shown with [showInfo]. *)
Definition autoGenerateBridgeFiles (assistants : list AssistantConfig)
    (fs : gmap string string) : gmap string string * list string :=
  let files := generateBridgeFiles fs assistants in
  let '(fs', r) := writeBridgeFiles files defaultRoot false fs in
  (fs',
   if Nat.ltb 0 (List.length (written r))
   then ["Generated context files: " +:+ Js.join ", " (written r)]
   else []).

End AutoBridge.

(** ** The scheme test of the URL standard, and concrete worlds *)

Module Url.

Definition isAlpha (c : ascii) : bool :=
  let n := nat_of_ascii c in
  (Nat.leb 65 n && Nat.leb n 90) || (Nat.leb 97 n && Nat.leb n 122).

Definition isSchemeChar (c : ascii) : bool :=
  let n := nat_of_ascii c in
  isAlpha c || (Nat.leb 48 n && Nat.leb n 57)
  || Ascii.eqb c "+" || Ascii.eqb c "-" || Ascii.eqb c ".".

(** Leading C0 controls and spaces are stripped before parsing. *)
Fixpoint trimLeading (s : string) : string :=
  match s with
  | String c s' => if Nat.leb (nat_of_ascii c) 32 then trimLeading s' else s
  | "" => ""
  end.

(** Tabs and newlines are removed wherever they stand. *)
Fixpoint removeTabNewline (s : string) : string :=
  match s with
  | String c s' =>
      let n := nat_of_ascii c in
      if Nat.eqb n 9 || Nat.eqb n 10 || Nat.eqb n 13
      then removeTabNewline s'
      else String c (removeTabNewline s')
  | "" => ""
  end.

Fixpoint schemeRest (s : string) : bool :=
  match s with
  | String c s' =>
      if Ascii.eqb c ":" then true
      else if isSchemeChar c then schemeRest s' else false
  | "" => false
  end.

(** The input starts, after that clean-up, with a scheme: a letter, then
    letters, digits, [+], [-] or [.], then a colon.  Without one the parser
    of the URL standard, given no base URL, fails. *)
Definition hasScheme (s : string) : bool :=
  match removeTabNewline (trimLeading s) with
  | String c s' => isAlpha c && schemeRest s'
  | "" => false
  end.

Fixpoint takeUntil (stop : ascii → bool) (s : string) : string :=
  match s with
  | String c s' => if stop c then "" else String c (takeUntil stop s')
  | "" => ""
  end.

Fixpoint dropUntil (stop : ascii → bool) (s : string) : string :=
  match s with
  | String c s' => if stop c then s else dropUntil stop s'
  | "" => ""
  end.

Definition isQueryOrFragment (c : ascii) : bool :=
  Ascii.eqb c "?" || Ascii.eqb c "#".

Definition endsAuthority (c : ascii) : bool :=
  Ascii.eqb c "/" || isQueryOrFragment c.

(** A small URL class for the concrete worlds below: it accepts
    [scheme://authority/path?query#fragment] with a non-empty authority and
    returns the path as written (["/"] when there is none), and rejects
    everything else.  It performs no normalisation. *)
Definition simplePathname (s : string) : option string :=
  if negb (hasScheme s) then None
  else
    let r := dropUntil (Ascii.eqb ":") s in
    if Js.startsWith r "://" then
      let rest := Js.drop 3 r in
      if Js.truthy (takeUntil endsAuthority rest) then
        let p := takeUntil isQueryOrFragment (dropUntil endsAuthority rest) in
        Some (if Js.startsWith p "/" then p else "/")
      else None
    else None.

End Url.


Definition notFound : Response :=
  {| ok := false; status := 404; text := "404: Not Found" |}.

Definition okResponse (body : string) : Response :=
  {| ok := true; status := 200; text := body |}.

Fixpoint assoc {A} (k : string) (l : list (string * A)) : option A :=
  match l with
  | [] => None
  | (k', v) :: l' => if String.eqb k k' then Some v else assoc k l'
  end.

(** A world given by the documents the network serves (every other URL
    answers 404) and the files on disk. *)
Definition exampleWorld (net disk : list (string * string)) : World :=
  {| fetch := λ u, Some (match assoc u net with
                         | Some body => okResponse body
                         | None => notFound
                         end);
     readFile := λ p, assoc p disk;
     cwd := "/home/user/project";
     URL_pathname := Url.simplePathname;
     parseFrontmatter := λ _, {| fm_name := None; fm_description := None |} |}.

(** ** The source-string grammar *)

(** First row of the grammar: a local path. *)
Definition isLocalPath (s : string) : bool :=
  Js.startsWith s "/" || Js.startsWith s "./" || Js.startsWith s "../".

(** Last row of the grammar: the string matches none of the patterns. *)
Definition matchesNoPattern (s : string) : bool :=
  negb (isLocalPath s) && negb (Js.includes s "github.com")
  && negb (Js.testOwnerRepo s) && negb (Js.testOwnerRepoPath s)
  && negb (Js.startsWith s "http://" || Js.startsWith s "https://").

(** The error the specification calls [UnparseableSource]. *)
Definition UnparseableSource (s : string) : JsError :=
  Error ("Unable to parse source: " +:+ s).

(** The path [/O/R/kind/B/P] of a GitHub tree or blob page, and its URL. *)
Definition treePathname (kind O R B P : string) : string :=
  "/" +:+ O +:+ "/" +:+ R +:+ "/" +:+ kind +:+ "/" +:+ B +:+ "/" +:+ P.

Definition treeUrl (kind O R B P : string) : string :=
  "https://github.com" +:+ treePathname kind O R B P.

(** [P] is made of non-empty segments separated by single slashes. *)
Definition isPath (P : string) : bool :=
  forallb Js.truthy (Js.split "/" P).

(** Sources and worlds for the branch fallback. *)
Definition ownerMain : GitHubSource :=
  {| owner := "main"; repo := "tools"; branch := None; path := None |}.

Definition ownerMainWorld : World :=
  exampleWorld
    [("https://raw.githubusercontent.com/main/tools/master/SKILL.md", "# tools")] [].

Definition explicitMain : GitHubSource :=
  {| owner := "acme"; repo := "tools"; branch := Some "main"; path := None |}.

Definition acmeTools : GitHubSource :=
  {| owner := "acme"; repo := "tools"; branch := None; path := None |}.

Definition acmeMasterWorld : World :=
  exampleWorld
    [("https://raw.githubusercontent.com/acme/tools/master/SKILL.md", "# tools")] [].

Definition acmeDev : GitHubSource :=
  {| owner := "acme"; repo := "tools"; branch := Some "dev"; path := Some "lint" |}.

(** The constant head of the raw-content URL template. *)
Definition rawHost : string := "https://raw.githubusercontent.com".

(** ** Final segments, in the words of the specification *)

(** [seg] is what follows the last slash of [p], or [p] itself when it has
    no slash. *)
Definition finalSegment (p seg : string) : Prop :=
  Js.noSlash seg = true ∧ (p = seg ∨ ∃ d, p = d +:+ "/" +:+ seg).

(** [n] slashes. *)
Fixpoint slashes (n : nat) : string :=
  match n with
  | O => ""
  | S n' => String "/" (slashes n')
  end.

(** [seg] is the last non-empty segment of [p]: only slashes follow it. *)
Definition finalNonEmptySegment (p seg : string) : Prop :=
  Js.isSegment seg = true
  ∧ ∃ n, p = seg +:+ slashes n ∨ ∃ d, p = d +:+ "/" +:+ seg +:+ slashes n.

(** [p] has no non-empty segment: it is made of slashes only. *)
Definition noSegment (p : string) : Prop := ∃ n, p = slashes n.

(** Sources and worlds for the derived identifier and the local probe. *)
Definition trailingSlash : GitHubSource :=
  {| owner := "acme"; repo := "tools"; branch := None; path := Some "lint/" |}.

Definition trailingSlashWorld : World :=
  exampleWorld
    [("https://raw.githubusercontent.com/acme/tools/main/lint//SKILL.md", "# lint")]
    [("/SKILL.md", "# root")].

Definition diskWorld : World :=
  exampleWorld
    [("https://example.com/skills/review.md", "# review")]
    [("/home/user/project/skills/lint/SKILL.md", "# lint");
     ("/home/user/project/notes.md", "# notes")].

(** The identifier of the item a fetch ended with, if it ended well. *)
Definition fetchedId (m : IO Skill.FetchedSkill) : option string :=
  match outcome m with
  | Ok sk => Some (Skill.id sk)
  | Throw _ => None
  end.

Definition lintSkill : Skill.FetchedSkill :=
  {| Skill.id := "lint"; Skill.name := "lint"; Skill.description := "";
     Skill.content := "# lint"; Skill.source := local "./skills/lint" |}.

(** A project with a [CLAUDE.md] of the user's own, and two candidates. *)
Definition userDisk : gmap string string :=
  {[ "/home/user/project/CLAUDE.md" := "my own notes" ]}.

Definition claudeBridge : BridgeFile :=
  {| filePath := "CLAUDE.md"; bridgeContent := "Read .ai/ for instructions.";
     bridgeDescription := "Claude" |}.

Definition geminiBridge : BridgeFile :=
  {| filePath := "GEMINI.md"; bridgeContent := "Read .ai/ for instructions.";
     bridgeDescription := "Gemini" |}.

(** ** Display (github.ts) *)

(** Get source display string.  The branch of a GitHub source is not
    shown. *)
Definition getSourceDisplayString (source : ContentSource) : string :=
  match source with
  | github g =>
      let path :=
        match path g with
        | Some p => if Js.truthy p then "/" +:+ p else ""
        | None => ""
        end in
      "github:" +:+ owner g +:+ "/" +:+ repo g +:+ path
  | url u => u
  | local p => "local:" +:+ p
  end.

(** An event is a network request. *)
Definition isFetch (e : Event) : bool :=
  match e with
  | EFetch _ => true
  | EReadFile _ => false
  end.

(** An event is a read of the disk. *)
Definition isReadFile (e : Event) : bool :=
  match e with
  | EFetch _ => false
  | EReadFile _ => true
  end.

(** [s.endsWith(suf)] *)
Fixpoint endsWith (s suf : string) : bool :=
  String.eqb s suf ||
  match s with
  | "" => false
  | String _ s' => endsWith s' suf
  end.

(** A world whose server answers 404 on the main branch of [acme/tools]
    and 500 everywhere else, and a world without network. *)
Definition serverErrorWorld : World :=
  {| fetch := λ u,
       Some (if String.eqb u "https://raw.githubusercontent.com/acme/tools/main/SKILL.md"
             then notFound
             else {| ok := false; status := 500; text := "" |});
     readFile := λ _, None;
     cwd := "/home/user/project";
     URL_pathname := Url.simplePathname;
     parseFrontmatter := λ _, {| fm_name := None; fm_description := None |} |}.

Definition offlineWorld : World :=
  {| fetch := λ _, None;
     readFile := λ _, None;
     cwd := "/home/user/project";
     URL_pathname := Url.simplePathname;
     parseFrontmatter := λ _, {| fm_name := None; fm_description := None |} |}.

(** ** Listing the skills of a repository (github.ts) *)

Module Api.

(** An element of the array the contents API answers with. *)
Record Entry := {
  name : string;
  type : string;
}.

(** What the code reads of a response of the API: [ok], and the array that
    [response.json()] resolves to; [None] when [json()] rejects or when the
    body is not an array, so that the use of the array throws.  Both
    happen inside a [try] that drops the error. *)
Record Response := {
  ok : bool;
  json : option (list Entry);
}.

End Api.

(** [fetch(url, { headers })] against the API; [None] when it rejects. *)
Definition await_api (api : string → option Api.Response) (u : string) :
    IO Api.Response :=
  ([EFetch u],
   match api u with
   | Some r => Ok r
   | None => Throw (TypeError "fetch failed")
   end).

(** [(await response.json()) as Array<...>], used as an array. *)
Definition await_json (r : Api.Response) : IO (list Api.Entry) :=
  ([],
   match Api.json r with
   | Some l => Ok l
   | None => Throw (TypeError "contents is not an array")
   end).

Definition isDir (item : Api.Entry) : bool := String.eqb (Api.type item) "dir".

Definition skillsApiUrl (owner repo branch : string) : string :=
  "https://api.github.com/repos/" +:+ owner +:+ "/" +:+ repo
    +:+ "/contents/skills?ref=" +:+ branch.

Definition rootApiUrl (owner repo branch : string) : string :=
  "https://api.github.com/repos/" +:+ owner +:+ "/" +:+ repo
    +:+ "/contents?ref=" +:+ branch.

Definition dirApiUrl (owner repo dir branch : string) : string :=
  "https://api.github.com/repos/" +:+ owner +:+ "/" +:+ repo
    +:+ "/contents/" +:+ dir +:+ "?ref=" +:+ branch.

(** The loop of [listGitHubSkillsRoot] over the entries of the root, with
    the array [skillDirs] built so far. *)
Fixpoint probeDirs (api : string → option Api.Response)
    (owner repo branch : string) (contents : list Api.Entry)
    (skillDirs : list string) : IO (list string) :=
  match contents with
  | [] => mret skillDirs
  | item :: rest =>
      if isDir item then
        dirResponse ← await_api api (dirApiUrl owner repo (Api.name item) branch);
        if Api.ok dirResponse then
          dirContents ← await_json dirResponse;
          if existsb (λ f, String.eqb (Api.name f) "SKILL.md") dirContents
          then probeDirs api owner repo branch rest
                 (skillDirs ++ [Api.name item])%list
          else probeDirs api owner repo branch rest skillDirs
        else probeDirs api owner repo branch rest skillDirs
      else probeDirs api owner repo branch rest skillDirs
  end.

(** List skills in repo root. *)
Definition listGitHubSkillsRoot (api : string → option Api.Response)
    (owner repo branch : string) : IO (list string) :=
  tryCatch
    (response ← await_api api (rootApiUrl owner repo branch);
     if negb (Api.ok response) then mret []
     else
       contents ← await_json response;
       let hasSkillMd :=
         existsb (λ item, String.eqb (Api.name item) "SKILL.md"
                          && String.eqb (Api.type item) "file") contents in
       if hasSkillMd then mret [repo]
       else probeDirs api owner repo branch contents [])
    (mret []).

(** List skills available in a GitHub repository.  The promise of
    [listGitHubSkillsRoot] is returned from inside the [try] without being
    awaited, so the [catch] does not cover it. *)
Definition listGitHubSkills (api : string → option Api.Response)
    (owner repo : string) (branch : option string) : IO (list string) :=
  let branch := default "main" branch in
  step ← tryCatch
           (response ← await_api api (skillsApiUrl owner repo branch);
            if negb (Api.ok response) then mret None
            else
              contents ← await_json response;
              mret (Some (List.map Api.name (List.filter isDir contents))))
           (mret (Some []));
  match step with
  | None => listGitHubSkillsRoot api owner repo branch
  | Some names => mret names
  end.

(** The listing of the directory [dir] answers ok and holds a [SKILL.md]. *)
Definition isSkillDir (api : string → option Api.Response)
    (owner repo branch dir : string) : bool :=
  match api (dirApiUrl owner repo dir branch) with
  | Some r =>
      Api.ok r &&
      match Api.json r with
      | Some l => existsb (λ f, String.eqb (Api.name f) "SKILL.md") l
      | None => false
      end
  | None => false
  end.

(** The probe of the directory [dir] throws: the request is rejected, or
    the response is ok and its body is not an array. *)
Definition probeThrows (api : string → option Api.Response)
    (owner repo branch dir : string) : bool :=
  match api (dirApiUrl owner repo dir branch) with
  | Some r => Api.ok r && negb (bool_decide (is_Some (Api.json r)))
  | None => true
  end.

(** A repository with a [skills] directory, and one without. *)
Definition apiOf (l : list (string * Api.Response)) (u : string) :
    option Api.Response :=
  Some (match assoc u l with
        | Some r => r
        | None => {| Api.ok := false; Api.json := None |}
        end).

Definition dirEntry (n : string) : Api.Entry := {| Api.name := n; Api.type := "dir" |}.
Definition fileEntry (n : string) : Api.Entry := {| Api.name := n; Api.type := "file" |}.

Definition okListing (l : list Api.Entry) : Api.Response :=
  {| Api.ok := true; Api.json := Some l |}.

Definition skillsRepoApi : string → option Api.Response :=
  apiOf [("https://api.github.com/repos/acme/tools/contents/skills?ref=main",
          okListing [dirEntry "lint"; fileEntry "README.md"; dirEntry "review"])].

Definition rootRepoApi : string → option Api.Response :=
  apiOf [("https://api.github.com/repos/acme/tools/contents?ref=main",
          okListing [dirEntry "lint"; fileEntry "README.md"; dirEntry "docs"]);
         ("https://api.github.com/repos/acme/tools/contents/lint?ref=main",
          okListing [fileEntry "SKILL.md"]);
         ("https://api.github.com/repos/acme/tools/contents/docs?ref=main",
          okListing [fileEntry "index.md"])].

Definition singleSkillApi : string → option Api.Response :=
  apiOf [("https://api.github.com/repos/acme/tools/contents?ref=main",
          okListing [fileEntry "SKILL.md"; dirEntry "examples"])].

(** ** Prompts and terminal (prompts.ts, cli.ts) *)

(** What a prompt of the UI library resolves to: a value, or the cancel
    symbol that [p.isCancel] recognises. *)
Inductive Answer (A : Type) :=
| Answered (a : A)
| Cancelled.
Arguments Answered {A} a.
Arguments Cancelled {A}.

(** What a command shows, in order. *)
Inductive Out :=
| LogError (message : string)
| LogInfo (message : string)
| LogWarn (message : string)
| ConsoleLog (message : string)
| Intro (message : string)
| Cancel (message : string)
| Outro (message : string)
| Note (message title : string).

(** The line feed of the template strings. *)
Definition nl : string := String (ascii_of_nat 10) "".

(** The hint shown beside an item in [selectItems].  The description is
    the sequence of its UTF-16 code units, which is what [length] counts and
    [slice] cuts; the three dots are the code unit 46 three times. *)
Definition itemHint (description : list N) : list N :=
  (List.firstn 60 description
   ++ (if Nat.ltb 60 (List.length description) then [46; 46; 46]%N else []))%list.

Inductive ContentType := skills | agents | commands | rules | prompts.

Inductive InstallScope := project | global.

Inductive InstallMethod := symlink | copy.

Definition scopeName (scope : InstallScope) : string :=
  match scope with
  | project => "project"
  | global => "global"
  end.

Module Cli.
(** The options of the command line that the commands below read. *)
Record options := {
  agents : list string;
  yes : bool;
}.
End Cli.

Section Commands.

(** The catalog items and the assistant records, with the fields that are
    read here; the registry of agents.ts; the generator of bridge.ts. *)
Variable CatalogItem : Type.
Variable itemName : CatalogItem → string.
Variable AssistantConfig : Type.
Variable assistantId : AssistantConfig → string.
Variable assistantName : AssistantConfig → string.
Variable getAllAssistants : list AssistantConfig.
Variable displayNameLower : ContentType → string.
Variable generateBridgeFiles :
  gmap string string → list AssistantConfig → list BridgeFile.

(** [InstallOptions] *)
Record InstallOptions := {
  items : list CatalogItem;
  assistants : list AssistantConfig;
  scope : InstallScope;
  method : InstallMethod;
}.

(** The answers of the user and the state of the machine: [p.confirm] by
    its message, the two selections of [runInteractiveInstall], the result
    of [detectInstalledAssistants]. *)
Variable confirm : string → Answer bool.
Variable selectContentTypes : Answer (list ContentType).
Variable selectItemsAnswer : list CatalogItem → ContentType → Answer (list CatalogItem).
Variable selectScope : Answer InstallScope.
Variable detectInstalledAssistants : list AssistantConfig.

(** [(await p.confirm(...)) === true], and [p.isCancel(c) || !c] negated. *)
Definition confirmed (a : Answer bool) : bool :=
  match a with
  | Answered true => true
  | _ => false
  end.

(** Bridge command: generate context files for detected editors. *)
Definition cmdBridge (options : Cli.options) (cwd : string)
    (fs : gmap string string) : gmap string string * list Out :=
  let assistants :=
    if Nat.ltb 0 (List.length (Cli.agents options))
    then List.filter
           (λ a, existsb (String.eqb (assistantId a)) (Cli.agents options))
           getAllAssistants
    else detectInstalledAssistants in
  if Nat.eqb (List.length assistants) 0
  then (fs, [LogError "No assistants detected. Install an AI assistant first."])
  else
    let files := generateBridgeFiles fs assistants in
    if Nat.eqb (List.length files) 0
    then (fs, [LogInfo "No bridge files to generate."])
    else
      let listing :=
        (ConsoleLog (nl +:+ "Bridge files to generate:" +:+ nl)
         :: List.map (λ f, ConsoleLog ("  " +:+ filePath f +:+ " — "
                                        +:+ bridgeDescription f)) files
         ++ [ConsoleLog ""])%list in
      if negb (Cli.yes options)
         && negb (confirmed (confirm ("Generate " +:+ pretty (List.length files)
                                        +:+ " context files?")))
      then (fs, (listing ++ [Cancel "Cancelled"])%list)
      else
        let overwrite :=
          if Cli.yes options then false
          else confirmed (confirm "Overwrite existing files?") in
        let '(fs', r) := writeBridgeFiles files cwd overwrite fs in
        (fs',
         (listing
          ++ (if Nat.ltb 0 (List.length (written r))
              then [LogInfo ("Created: " +:+ Js.join ", " (written r))] else [])
          ++ (if Nat.ltb 0 (List.length (skipped r))
              then [LogInfo ("Skipped (already exist): "
                             +:+ Js.join ", " (skipped r))] else [])
          ++ [Outro "Bridge files ready — each editor now reads .ai/"])%list).

(** Confirm installation: the note, then the prompt. *)
Definition confirmInstall (options : InstallOptions) : Answer bool * list Out :=
  let itemNames := Js.join ", " (List.map itemName (items options)) in
  let assistantNames := Js.join ", " (List.map assistantName (assistants options)) in
  (confirm "Proceed with installation?",
   [Note (Js.join nl ["Items: " +:+ itemNames;
                      "Assistants: " +:+ assistantNames;
                      "Scope: " +:+ scopeName (scope options);
                      "Destination: .ai/"])
      "Installation Summary"]).

(** The loop of [runInteractiveInstall] over the selected content types,
    with the array [allSelectedItems] built so far; [None] when a selection
    is cancelled. *)
Fixpoint selectAllItems (catalog : ContentType → option (list CatalogItem))
    (contentTypes : list ContentType) (allSelectedItems : list CatalogItem) :
    option (list CatalogItem) * list Out :=
  match contentTypes with
  | [] => (Some allSelectedItems, [])
  | contentType :: rest =>
      let availableItems := default [] (catalog contentType) in
      if Nat.eqb (List.length availableItems) 0 then
        let '(r, out) := selectAllItems catalog rest allSelectedItems in
        (r, LogWarn ("No " +:+ displayNameLower contentType
                       +:+ " available, skipping.") :: out)
      else
        match selectItemsAnswer availableItems contentType with
        | Cancelled => (None, [Cancel "Installation cancelled"])
        | Answered selected =>
            selectAllItems catalog rest (allSelectedItems ++ selected)%list
        end
  end.

(** Run full interactive install flow. *)
Definition runInteractiveInstall (catalog : ContentType → option (list CatalogItem)) :
    option InstallOptions * list Out :=
  let intro := Intro "🚀 personal-ai-skills installer" in
  match selectContentTypes with
  | Cancelled => (None, [intro; Cancel "Installation cancelled"])
  | Answered contentTypes =>
      match selectAllItems catalog contentTypes [] with
      | (None, out) => (None, intro :: out)
      | (Some allSelectedItems, out) =>
          if Nat.eqb (List.length allSelectedItems) 0
          then (None, (intro :: out ++ [Cancel "No items selected"])%list)
          else
            let detectedAssistants := detectInstalledAssistants in
            let detection :=
              if Nat.eqb (List.length detectedAssistants) 0
              then LogWarn "No AI assistants detected — installing to .ai/ anyway."
              else LogInfo ("Detected: "
                            +:+ Js.join ", " (List.map assistantName detectedAssistants)) in
            match selectScope with
            | Cancelled =>
                (None, (intro :: out ++ [detection; Cancel "Installation cancelled"])%list)
            | Answered scope =>
                let assistants :=
                  if Nat.ltb 0 (List.length detectedAssistants)
                  then detectedAssistants
                  else List.firstn 1 getAllAssistants in
                let options :=
                  {| items := allSelectedItems; assistants := assistants;
                     scope := scope; method := symlink |} in
                let '(answer, note) := confirmInstall options in
                if confirmed answer
                then (Some options, (intro :: out ++ detection :: note)%list)
                else (None, (intro :: out ++ detection :: note
                               ++ [Cancel "Installation cancelled"])%list)
            end
      end
  end.

End Commands.

(** ** Dot segments in the URL class *)

(** The path segments of a URL as the URL standard keeps them: a [..]
    segment removes the segment before it, a [.] segment vanishes, and
    either of them in last position leaves an empty last segment.  Empty
    segments stay. *)
Fixpoint resolveDotSegments (segs acc : list string) : list string :=
  match segs with
  | [] => acc
  | [seg] =>
      if String.eqb seg ".." then (removelast acc ++ [""])%list
      else if String.eqb seg "." then (acc ++ [""])%list
      else (acc ++ [seg])%list
  | seg :: rest =>
      if String.eqb seg ".." then resolveDotSegments rest (removelast acc)
      else if String.eqb seg "." then resolveDotSegments rest acc
      else resolveDotSegments rest (acc ++ [seg])%list
  end.

(** [Url.simplePathname] with the dot segments of the path resolved. *)
Definition dotResolvedPathname (s : string) : option string :=
  match Url.simplePathname s with
  | Some p =>
      Some ("/" +:+ Js.join "/" (resolveDotSegments (Js.split "/" (Js.drop 1 p)) []))
  | None => None
  end.

(** A world without documents whose URL class resolves dot segments. *)
Definition dotResolvingWorld : World :=
  {| fetch := λ _, Some notFound;
     readFile := λ _, None;
     cwd := "/home/user/project";
     URL_pathname := dotResolvedPathname;
     parseFrontmatter := λ _, {| fm_name := None; fm_description := None |} |}.

(** ** Lemmas on the string primitives *)

Lemma sapp_assoc (a b c : string) : (a +:+ b) +:+ c = a +:+ (b +:+ c).
Proof. induction a as [|x a IH]; simpl; [done | by rewrite IH]. Qed.

Lemma sapp_nil_r (a : string) : a +:+ "" = a.
Proof. induction a as [|x a IH]; simpl; [done | by rewrite IH]. Qed.

Lemma sapp_length (a b : string) :
  String.length (a +:+ b) = (String.length a + String.length b)%nat.
Proof. induction a as [|x a IH]; simpl; [done | by rewrite IH]. Qed.

Lemma eqb_length_ne (a b : string) :
  String.length a ≠ String.length b → String.eqb a b = false.
Proof. intros H. apply String.eqb_neq. by intros ->. Qed.

Lemma all_app P (a b : string) : Js.all P (a +:+ b) = Js.all P a && Js.all P b.
Proof.
  induction a as [|x a IH]; simpl; [done |].
  rewrite IH. by destruct (P x).
Qed.

Lemma all_impl (P Q : ascii → bool) (s : string) :
  (∀ c, P c = true → Q c = true) → Js.all P s = true → Js.all Q s = true.
Proof.
  intros HPQ. induction s as [|x s IH]; simpl; [done |].
  intros [Hx Hs]%andb_true_iff. rewrite (HPQ _ Hx). by apply IH.
Qed.

Lemma startsWith_all P (s pat : string) :
  Js.all P s = true → Js.startsWith s pat = true → Js.all P pat = true.
Proof.
  revert s. induction pat as [|p pat IH]; intros s; simpl; [done |].
  destruct s as [|c s]; [done |]. simpl.
  intros [Hc Hs]%andb_true_iff [Heq Hst]%andb_true_iff.
  apply Ascii.eqb_eq in Heq as ->. rewrite Hc. by apply (IH s).
Qed.

(** A string made of characters of a class includes only patterns made of
    them. *)
Lemma includes_all P (s pat : string) :
  Js.all P s = true → Js.includes s pat = true → Js.all P pat = true.
Proof.
  induction s as [|c s IH]; simpl.
  - intros _. rewrite orb_false_r. by destruct pat.
  - intros [Hc Hs]%andb_true_iff [Hst | Hin]%orb_true_iff.
    + apply (startsWith_all P (String c s)); [| done]. simpl. by rewrite Hc.
    + by apply IH.
Qed.

Lemma wordOrHyphen_not_slash c :
  Js.isWordOrHyphen c = true → negb (Ascii.eqb c "/") = true.
Proof.
  destruct c as [[] [] [] [] [] [] [] []]; vm_compute; congruence.
Qed.

Lemma wordOrHyphen_not_dot c :
  Js.isWordOrHyphen c = true → negb (Ascii.eqb c ".") = true.
Proof.
  destruct c as [[] [] [] [] [] [] [] []]; vm_compute; congruence.
Qed.

Lemma isWord_noSlash (s : string) : Js.isWord s = true → Js.noSlash s = true.
Proof.
  intros [_ H]%andb_true_iff. revert H. apply all_impl, wordOrHyphen_not_slash.
Qed.

(** [spanWord] stops exactly at the end of a run of the class. *)
Lemma spanWord_app (o rest : string) :
  Js.all Js.isWordOrHyphen o = true →
  Js.spanWord rest = ("", rest) →
  Js.spanWord (o +:+ rest) = (o, rest).
Proof.
  intros Ho Hrest. induction o as [|c o IH]; simpl in *; [done |].
  apply andb_true_iff in Ho as [-> Ho]. by rewrite (IH Ho).
Qed.

Lemma spanWord_slash (rest : string) :
  Js.spanWord (String "/" rest) = ("", String "/" rest).
Proof. reflexivity. Qed.

(** Splitting at the separator that follows a separator-free segment. *)
Lemma split_app_sep (seg rest : string) :
  Js.noSlash seg = true →
  Js.split "/" (seg +:+ "/" +:+ rest) = seg :: Js.split "/" rest.
Proof.
  intros Hseg. induction seg as [|c seg IH]; simpl in *; [done |].
  apply andb_true_iff in Hseg as [Hc Hseg].
  apply negb_true_iff in Hc. rewrite Hc. by rewrite (IH Hseg).
Qed.

Lemma split_noSlash (seg : string) :
  Js.noSlash seg = true → Js.split "/" seg = [seg].
Proof.
  intros Hseg. induction seg as [|c seg IH]; simpl in *; [done |].
  apply andb_true_iff in Hseg as [Hc Hseg].
  apply negb_true_iff in Hc. rewrite Hc. by rewrite (IH Hseg).
Qed.

Lemma split_nonempty (s : string) : Js.split "/" s ≠ [].
Proof.
  destruct s as [|c s]; simpl; [done |].
  destruct (Ascii.eqb c "/"); [done |]. by destruct (Js.split "/" s).
Qed.

(** [split] and [join] are inverse on the result of [split]. *)
Lemma join_split (s : string) : Js.join "/" (Js.split "/" s) = s.
Proof.
  induction s as [|c s IH]; simpl; [done |].
  destruct (Ascii.eqb c "/") eqn:Hc.
  - apply Ascii.eqb_eq in Hc as ->.
    pose proof (split_nonempty s) as Hne.
    destruct (Js.split "/" s) as [|seg segs] eqn:Hs; [done |].
    simpl. simpl in IH. by rewrite IH.
  - pose proof (split_nonempty s) as Hne.
    destruct (Js.split "/" s) as [|seg segs] eqn:Hs; [done |].
    destruct segs as [|seg' segs]; simpl in *; by rewrite <- IH.
Qed.

(** ** Shorthand and local sources *)

Lemma isWord_cons (o : string) :
  Js.isWord o = true →
  ∃ c o', o = String c o' ∧ Js.isWordOrHyphen c = true.
Proof.
  destruct o as [|c o']; [done |]. unfold Js.isWord. simpl.
  intros [Hc _]%andb_true_iff. eauto.
Qed.

Lemma isWord_not_local (o rest : string) :
  Js.isWord o = true → isLocalPath (o +:+ rest) = false.
Proof.
  intros (c & o' & -> & Hc)%isWord_cons. unfold isLocalPath. simpl.
  apply wordOrHyphen_not_slash in Hc as Hs.
  apply wordOrHyphen_not_dot in Hc as Hd.
  apply negb_true_iff in Hs, Hd. by rewrite Hs, Hd.
Qed.

Lemma owner_repo_no_github (o r : string) :
  Js.isWord o = true → Js.isWord r = true →
  Js.includes (o +:+ "/" +:+ r) "github.com" = false.
Proof.
  intros [_ Ho]%andb_true_iff [_ Hr]%andb_true_iff.
  apply not_true_is_false. intros Hin.
  apply (includes_all (λ c, negb (Ascii.eqb c "."))) in Hin; [done |].
  rewrite !all_app. simpl.
  rewrite (all_impl _ _ _ wordOrHyphen_not_dot Ho).
  by rewrite (all_impl _ _ _ wordOrHyphen_not_dot Hr).
Qed.

Lemma spanWord_word (r : string) :
  Js.all Js.isWordOrHyphen r = true → Js.spanWord r = (r, "").
Proof.
  intros Hr. rewrite <- (sapp_nil_r r) at 1. by apply spanWord_app.
Qed.

Lemma testOwnerRepo_owner_repo (o r : string) :
  Js.isWord o = true → Js.isWord r = true →
  Js.testOwnerRepo (o +:+ "/" +:+ r) = true.
Proof.
  intros [Hto Ho]%andb_true_iff [Htr Hr]%andb_true_iff.
  unfold Js.testOwnerRepo.
  rewrite (spanWord_app o ("/" +:+ r) Ho (spanWord_slash r)).
  simpl. rewrite (spanWord_word r Hr). by rewrite Hto, Htr.
Qed.

(** C4: for every string [owner/repo] whose owner and repo are non-empty
    runs of word characters and hyphens, [parseSource] returns the GitHub
    source with that owner and that repo, without path and without
    branch. *)
Theorem parseSource_owner_repo (w : World) (o r : string) :
  Js.isWord o = true → Js.isWord r = true →
  parseSource w (o +:+ "/" +:+ r)
  = Ok (github {| owner := o; repo := r; branch := None; path := None |}).
Proof.
  intros Ho Hr. unfold parseSource.
  pose proof (isWord_not_local o ("/" +:+ r) Ho) as Hloc.
  unfold isLocalPath in Hloc. rewrite Hloc.
  rewrite (owner_repo_no_github o r Ho Hr).
  rewrite (testOwnerRepo_owner_repo o r Ho Hr).
  rewrite (split_app_sep o r (isWord_noSlash o Ho)).
  by rewrite (split_noSlash r (isWord_noSlash r Hr)).
Qed.

Lemma parseSource_owner_repo_witness :
  parseSource (exampleWorld [] []) "vercel-labs/agent_skills"
  = Ok (github {| owner := "vercel-labs"; repo := "agent_skills";
                  branch := None; path := None |}).
Proof.
  apply (parseSource_owner_repo (exampleWorld [] []) "vercel-labs" "agent_skills");
    reflexivity.
Defined.

(** C6: every string that starts with [/], [./] or [../] is a local source
    whose path is the string itself, and every string that matches none of
    the patterns of the grammar, such as ["not a valid source!!"], fails
    with the [UnparseableSource] error. *)
Theorem parseSource_local_or_unparseable (w : World) (s : string) :
  (isLocalPath s = true → parseSource w s = Ok (local s))
  ∧ (matchesNoPattern s = true → parseSource w s = Throw (UnparseableSource s))
  ∧ parseSource w "not a valid source!!"
    = Throw (UnparseableSource "not a valid source!!").
Proof.
  split; [| split].
  - unfold parseSource, isLocalPath. by intros ->.
  - unfold matchesNoPattern, parseSource, isLocalPath.
    intros [[[[Hl Hg]%andb_true_iff Ho]%andb_true_iff Hp]%andb_true_iff Hu]%andb_true_iff.
    apply negb_true_iff in Hl, Hg, Ho, Hp, Hu.
    by rewrite Hl, Hg, Ho, Hp, Hu.
  - reflexivity.
Qed.

Lemma parseSource_local_or_unparseable_witness :
  parseSource (exampleWorld [] []) "./foo" = Ok (local "./foo")
  ∧ parseSource (exampleWorld [] []) "/abs/foo" = Ok (local "/abs/foo")
  ∧ parseSource (exampleWorld [] []) "skill?" = Throw (UnparseableSource "skill?").
Proof.
  split; [| split].
  - apply (parseSource_local_or_unparseable (exampleWorld [] []) "./foo"). reflexivity.
  - apply (parseSource_local_or_unparseable (exampleWorld [] []) "/abs/foo"). reflexivity.
  - apply (parseSource_local_or_unparseable (exampleWorld [] []) "skill?"). reflexivity.
Defined.

(** ** GitHub URLs *)

Lemma filterBoolean_all (l : list string) :
  forallb Js.truthy l = true → Js.filterBoolean l = l.
Proof.
  unfold Js.filterBoolean. induction l as [|x l IH]; simpl; [done |].
  intros [-> Hl]%andb_true_iff. by rewrite (IH Hl).
Qed.

(** A suffix is removed from the end, and only from the end. *)
Lemma removeAtEnd_app (p suf : string) : Js.removeAtEnd (p +:+ suf) suf = p.
Proof.
  induction p as [|c p IH].
  - simpl. destruct suf; simpl; by rewrite ?String.eqb_refl, ?Ascii.eqb_refl.
  - change (String c p +:+ suf) with (String c (p +:+ suf)).
    cbn [Js.removeAtEnd]. rewrite eqb_length_ne.
    + by rewrite IH.
    + simpl. rewrite sapp_length. lia.
Qed.

Lemma removeAtEnd_no_suffix (s suf : string) :
  (∀ p, s ≠ p +:+ suf) → Js.removeAtEnd s suf = s.
Proof.
  induction s as [|c s IH]; intros Hno.
  - destruct suf; [| done]. by destruct (Hno "").
  - cbn [Js.removeAtEnd].
    destruct (String.eqb_spec (String c s) suf) as [<- | _].
    + by destruct (Hno "").
    + f_equal. apply IH. intros p ->. by apply (Hno (String c p)).
Qed.

Lemma split_treePathname (kind O R B P : string) :
  Js.isSegment O = true → Js.isSegment R = true → Js.isSegment B = true →
  Js.noSlash kind = true →
  Js.split "/" (treePathname kind O R B P)
  = "" :: O :: R :: kind :: B :: Js.split "/" P.
Proof.
  intros [_ HO]%andb_true_iff [_ HR]%andb_true_iff [_ HB]%andb_true_iff Hk.
  unfold treePathname.
  change ("/" +:+ O +:+ "/" +:+ R +:+ "/" +:+ kind +:+ "/" +:+ B +:+ "/" +:+ P)
    with ("" +:+ "/" +:+ O +:+ "/" +:+ R +:+ "/" +:+ kind +:+ "/" +:+ B +:+ "/" +:+ P).
  by rewrite !split_app_sep.
Qed.

(** C5, as the code has it: for every GitHub URL
    [https://github.com/O/R/tree/B/P], and for its [/blob/] variant, where
    [O], [R] and [B] are non-empty segments, [P] is made of non-empty
    segments separated by single slashes, and the URL class returns the path
    [/O/R/tree/B/P] as written, [parseSource] returns the GitHub source with
    owner [O], repo [R], branch [B] and path [P], where a trailing
    [/SKILL.md] of [P] is removed. *)
Theorem parseSource_tree_url (w : World) (kind O R B P : string) :
  kind = "tree" ∨ kind = "blob" →
  Js.isSegment O = true → Js.isSegment R = true → Js.isSegment B = true →
  isPath P = true →
  URL_pathname w (treeUrl kind O R B P) = Some (treePathname kind O R B P) →
  parseSource w (treeUrl kind O R B P)
  = Ok (github {| owner := O; repo := R; branch := Some B;
                  path := Some (Js.removeAtEnd P "/SKILL.md") |})
  ∧ (∀ P', P = P' +:+ "/SKILL.md" → Js.removeAtEnd P "/SKILL.md" = P')
  ∧ ((∀ P', P ≠ P' +:+ "/SKILL.md") → Js.removeAtEnd P "/SKILL.md" = P).
Proof.
  intros Hkind HO HR HB HP Hurl. split; [| split].
  - assert (Hk : Js.noSlash kind = true) by (by destruct Hkind as [-> | ->]).
    assert (Hkt : Js.truthy kind = true) by (by destruct Hkind as [-> | ->]).
    assert (Hkk : String.eqb kind "tree" || String.eqb kind "blob" = true)
      by (by destruct Hkind as [-> | ->]).
    unfold parseSource, parseGitHubUrl. rewrite Hurl.
    rewrite (split_treePathname kind O R B P HO HR HB Hk).
    unfold treeUrl, treePathname. simpl.
    apply andb_true_iff in HO as [HOt _], HR as [HRt _], HB as [HBt _].
    rewrite HOt, HRt, Hkt, HBt. fold (Js.filterBoolean (Js.split "/" P)).
    rewrite (filterBoolean_all _ HP).
    pose proof (split_nonempty P) as Hne.
    destruct (Js.split "/" P) as [|seg segs] eqn:Hsplit; [done |].
    pose proof (join_split P) as Hj. rewrite Hsplit in Hj.
    simpl. rewrite Hkk. simpl. simpl in Hj. by rewrite Hj.
  - intros P' ->. apply removeAtEnd_app.
  - apply removeAtEnd_no_suffix.
Qed.

Lemma parseSource_tree_url_witness :
  parseSource (exampleWorld [] [])
    "https://github.com/acme/tools/blob/dev/skills/lint/SKILL.md"
  = Ok (github {| owner := "acme"; repo := "tools"; branch := Some "dev";
                  path := Some "skills/lint" |}).
Proof.
  apply (parseSource_tree_url (exampleWorld [] []) "blob" "acme" "tools" "dev"
           "skills/lint/SKILL.md"); try reflexivity. by right.
Defined.

(** C5 as stated fails where the path of the URL is not kept as it is
    written: the URL class resolves the dot segment of
    [.../tree/dev/skills/../lint], so that the path returned is [lint]; and
    the empty segment that a final slash leaves is dropped, so that
    [.../tree/dev/skills/lint/] gives the path [skills/lint]. *)
Lemma parseSource_tree_url_rewritten :
  treeUrl "tree" "acme" "tools" "dev" "skills/../lint"
  = "https://github.com/acme/tools/tree/dev/skills/../lint"
  ∧ URL_pathname dotResolvingWorld
      "https://github.com/acme/tools/tree/dev/skills/../lint"
    = Some "/acme/tools/tree/dev/lint"
  ∧ parseSource dotResolvingWorld
      "https://github.com/acme/tools/tree/dev/skills/../lint"
    = Ok (github {| owner := "acme"; repo := "tools"; branch := Some "dev";
                    path := Some "lint" |})
  ∧ treeUrl "tree" "acme" "tools" "dev" "skills/lint/"
    = "https://github.com/acme/tools/tree/dev/skills/lint/"
  ∧ parseSource (exampleWorld [] [])
      "https://github.com/acme/tools/tree/dev/skills/lint/"
    = Ok (github {| owner := "acme"; repo := "tools"; branch := Some "dev";
                    path := Some "skills/lint" |}).
Proof. repeat split; vm_compute; reflexivity. Qed.

(** ** Strings that mention github.com *)





(** ** The fallback URL *)

Lemma replace_skip (seg rest rep : string) :
  Js.noSlash seg = true →
  Js.replace (seg +:+ rest) "/main/" rep = seg +:+ Js.replace rest "/main/" rep.
Proof.
  intros Hseg. induction seg as [|c seg IH]; [done |].
  simpl in Hseg. apply andb_true_iff in Hseg as [Hc Hseg].
  apply negb_true_iff in Hc.
  change (String c seg +:+ rest) with (String c (seg +:+ rest)).
  cbn [Js.replace Js.startsWith]. rewrite Hc. cbn [andb].
  by rewrite (IH Hseg).
Qed.

(** A separator-free segment followed by a slash starts with [m/] exactly
    when it is [m]. *)
Lemma startsWith_segment (seg m rest : string) :
  Js.noSlash seg = true → Js.noSlash m = true →
  Js.startsWith (seg +:+ "/" +:+ rest) (m +:+ "/") = String.eqb seg m.
Proof.
  revert seg. induction m as [|a m IH]; intros seg Hseg Hm.
  - destruct seg as [|c seg]; [done |].
    cbn [Js.noSlash Js.all] in Hseg. apply andb_true_iff in Hseg as [Hc _].
    apply negb_true_iff in Hc.
    cbn [String.append Js.startsWith String.eqb]. by rewrite Hc.
  - cbn [Js.noSlash Js.all] in Hm. apply andb_true_iff in Hm as [Ha Hm].
    apply negb_true_iff in Ha.
    destruct seg as [|c seg].
    + cbn [String.append Js.startsWith String.eqb].
      destruct (Ascii.eqb_spec "/" a) as [<- | _]; [done | done].
    + cbn [Js.noSlash Js.all] in Hseg. apply andb_true_iff in Hseg as [_ Hseg].
      cbn [String.append Js.startsWith String.eqb].
      change (String "/" rest) with ("/" +:+ rest).
      rewrite (IH seg Hseg Hm). by destruct (Ascii.eqb c a).
Qed.

Lemma replace_unfold (s pat rep : string) :
  Js.replace s pat rep
  = if Js.startsWith s pat then rep +:+ Js.drop (String.length pat) s
    else match s with
         | "" => ""
         | String c s' => String c (Js.replace s' pat rep)
         end.
Proof. by destruct s. Qed.

Lemma startsWith_cons (c p : ascii) (s pre : string) :
  Js.startsWith (String c s) (String p pre) = Ascii.eqb c p && Js.startsWith s pre.
Proof. reflexivity. Qed.

Lemma replace_at_segment (seg rest rep : string) :
  Js.noSlash seg = true →
  Js.replace ("/" +:+ seg +:+ "/" +:+ rest) "/main/" rep
  = if String.eqb seg "main" then rep +:+ rest
    else "/" +:+ seg +:+ Js.replace ("/" +:+ rest) "/main/" rep.
Proof.
  intros Hseg.
  change ("/" +:+ seg +:+ "/" +:+ rest) with (String "/" (seg +:+ "/" +:+ rest)).
  rewrite replace_unfold.
  change "/main/" with (String "/" ("main" +:+ "/")) at 1.
  rewrite startsWith_cons, Ascii.eqb_refl. cbn [andb].
  rewrite (startsWith_segment seg "main" rest Hseg eq_refl).
  destruct (String.eqb_spec seg "main") as [-> | Hne].
  - reflexivity.
  - change (String "/" ?x) with ("/" +:+ x). f_equal.
    by rewrite (replace_skip seg ("/" +:+ rest) rep Hseg).
Qed.

Lemma rawUrlOn_host (g : GitHubSource) (b : string) :
  rawUrlOn g b
  = rawHost +:+ "/" +:+ owner g +:+ "/" +:+ repo g +:+ "/" +:+ b +:+ "/"
      +:+ skillFilePath g.
Proof. unfold rawUrlOn, rawHost. simpl. reflexivity. Qed.

(** No ["/main/"] starts inside the constant head of the URL. *)
Lemma replace_rawHost (rest rep : string) :
  Js.replace (rawHost +:+ rest) "/main/" rep
  = rawHost +:+ Js.replace rest "/main/" rep.
Proof. unfold rawHost. vm_compute. reflexivity. Qed.

(** The three shapes of the fallback URL of a source on the branch [main]. *)
Lemma masterUrl_cases (g : GitHubSource) :
  Js.noSlash (owner g) = true → Js.noSlash (repo g) = true →
  effectiveBranch g = "main" →
  masterUrl g
  = if String.eqb (owner g) "main" then
      rawHost +:+ "/master/" +:+ repo g +:+ "/main/" +:+ skillFilePath g
    else if String.eqb (repo g) "main" then
      rawHost +:+ "/" +:+ owner g +:+ "/master/main/" +:+ skillFilePath g
    else rawUrlOn g "master".
Proof.
  intros Ho Hr Hb. unfold masterUrl, rawUrl. rewrite Hb.
  rewrite !rawUrlOn_host, replace_rawHost.
  rewrite (replace_at_segment (owner g) _ _ Ho).
  destruct (String.eqb (owner g) "main"); [reflexivity |].
  rewrite (replace_at_segment (repo g) _ _ Hr).
  destruct (String.eqb (repo g) "main"); [reflexivity |].
  by rewrite (replace_at_segment "main" _ _ eq_refl).
Qed.

(** C10: the fallback URL is the primary raw-content URL with its first
    ["/main/"] replaced by ["/master/"]; for a source on the branch [main]
    whose owner and repository are path segments, it is the primary URL with
    only the branch changed exactly when neither the owner nor the
    repository is named ["main"]. *)
Theorem masterUrl_changes_branch_iff (g : GitHubSource) :
  Js.noSlash (owner g) = true → Js.noSlash (repo g) = true →
  effectiveBranch g = "main" →
  masterUrl g = Js.replace (rawUrlOn g "main") "/main/" "/master/"
  ∧ (masterUrl g = rawUrlOn g "master" ↔ owner g ≠ "main" ∧ repo g ≠ "main").
Proof.
  intros Ho Hr Hb. split.
  { unfold masterUrl, rawUrl. by rewrite Hb. }
  rewrite (masterUrl_cases g Ho Hr Hb).
  destruct (String.eqb_spec (owner g) "main") as [Hio | Hno].
  - split; [| by intros [? _]]. rewrite rawUrlOn_host, Hio. intros H.
    apply (inj (String.append rawHost)) in H. by simplify_eq/=.
  - destruct (String.eqb_spec (repo g) "main") as [Hir | Hnr].
    + split; [| by intros [_ ?]]. rewrite rawUrlOn_host, Hir. intros H.
      apply (inj (String.append rawHost)) in H. simpl in H.
      injection H as H. apply (inj (String.append (owner g))) in H.
      by simplify_eq/=.
    + done.
Qed.

Lemma masterUrl_changes_branch_iff_witness :
  masterUrl acmeTools = rawUrlOn acmeTools "master"
  ∧ masterUrl ownerMain ≠ rawUrlOn ownerMain "master".
Proof.
  split.
  - apply (masterUrl_changes_branch_iff acmeTools eq_refl eq_refl eq_refl).
    split; discriminate.
  - intros H.
    apply (masterUrl_changes_branch_iff ownerMain eq_refl eq_refl eq_refl) in H.
    by destruct H as [H _].
Defined.

(** ** Fetching from GitHub *)

Lemma fetchSkill_github (w : World) (g : GitHubSource) :
  fetchSkill w (github g)
  = content ← fetchFromGitHub w g;
    mret {| Skill.id := Js.orElse (p ← path g; pop (Js.split "/" p)) (repo g);
            Skill.name :=
              Js.orElse (fm_name (parseFrontmatter w content))
                (Js.orElse (p ← path g; pop (Js.split "/" p)) (repo g));
            Skill.description :=
              Js.orElse (fm_description (parseFrontmatter w content)) "";
            Skill.content := content;
            Skill.source := github g |}.
Proof.
  unfold fetchSkill. destruct (fetchFromGitHub w g) as [t [c | e]]; [| done].
  unfold mbind, IO_bind, liftResult, deriveId, mret, IO_ret. simpl.
  by rewrite app_nil_r.
Qed.

(** The fallback does its work when the segment replaced is the branch:
    the first response is not ok, the master-branch URL answers, and the
    master-branch content is returned after exactly two requests. *)
Lemma fetchSkill_master_fallback (w : World) (g : GitHubSource) (r1 r2 : Response) :
  Js.noSlash (owner g) = true → Js.noSlash (repo g) = true →
  owner g ≠ "main" → repo g ≠ "main" →
  effectiveBranch g = "main" →
  fetch w (rawUrlOn g "main") = Some r1 → ok r1 = false →
  fetch w (rawUrlOn g "master") = Some r2 → ok r2 = true →
  ∃ sk, fetchSkill w (github g)
        = ([EFetch (rawUrlOn g "main"); EFetch (rawUrlOn g "master")], Ok sk)
        ∧ Skill.content sk = text r2.
Proof.
  intros Ho Hr Hno Hnr Hb H1 Hok1 H2 Hok2.
  assert (Hm : masterUrl g = rawUrlOn g "master").
  { rewrite (masterUrl_cases g Ho Hr Hb).
    destruct (String.eqb_spec (owner g) "main"); [done |].
    by destruct (String.eqb_spec (repo g) "main"). }
  rewrite fetchSkill_github. unfold fetchFromGitHub, await_fetch, rawUrl.
  rewrite Hm, Hb. unfold mbind, IO_bind, mret, IO_ret.
  rewrite H1, Hok1. simpl. rewrite H2, Hok2. simpl. eauto.
Qed.

(** C1 at an owner named ["main"]: the source [main/tools] has no explicit
    branch, its main-branch URL answers 404 and its master-branch URL
    answers with the document, and yet the fetch fails: the second request
    goes to the URL whose owner segment was replaced. *)
Theorem fetchSkill_owner_main :
  parseSource ownerMainWorld "main/tools" = Ok (github ownerMain)
  ∧ fetch ownerMainWorld (rawUrlOn ownerMain "main") = Some notFound
  ∧ fetch ownerMainWorld (rawUrlOn ownerMain "master") = Some (okResponse "# tools")
  ∧ fetchSkill ownerMainWorld (github ownerMain)
    = ([EFetch "https://raw.githubusercontent.com/main/tools/main/SKILL.md";
        EFetch "https://raw.githubusercontent.com/master/tools/main/SKILL.md"],
       Throw (Error "Failed to fetch from GitHub: 404")).
Proof. repeat split; vm_compute; reflexivity. Qed.

(** C2 as stated fails: a branch given explicitly as ["main"] is retried on
    [master] all the same, and the error holds the status only. *)
Lemma fetchSkill_explicit_main_retried :
  parseSource (exampleWorld [] []) "https://github.com/acme/tools/tree/main"
  = Ok (github explicitMain)
  ∧ branch explicitMain = Some "main"
  ∧ fetchSkill (exampleWorld [] []) (github explicitMain)
    = ([EFetch "https://raw.githubusercontent.com/acme/tools/main/SKILL.md";
        EFetch "https://raw.githubusercontent.com/acme/tools/master/SKILL.md"],
       Throw (Error "Failed to fetch from GitHub: 404")).
Proof. repeat split; vm_compute; reflexivity. Qed.

(** C2, as the code has it: a fetch from GitHub issues one request, or two:
    the second request, to the fallback URL, is made exactly when the first
    request gets a response, that response is not ok, and the branch in
    effect (the given one, or [main] when none is given) is [main]; a first
    request that is rejected is fatal at once, on every branch; for a
    source whose explicit branch is neither empty nor [main], a response
    that is not ok is fatal at once, with no second request, and the error
    message holds the HTTP status. *)
Theorem fetchSkill_github_fallback_policy (w : World) (g : GitHubSource) :
  (trace (fetchSkill w (github g)) = [EFetch (rawUrl g)]
   ∨ trace (fetchSkill w (github g)) = [EFetch (rawUrl g); EFetch (masterUrl g)])
  ∧ (∀ r, fetch w (rawUrl g) = Some r → ok r = false →
     (effectiveBranch g = "main"
      ↔ trace (fetchSkill w (github g)) = [EFetch (rawUrl g); EFetch (masterUrl g)]))
  ∧ (∀ r, fetch w (rawUrl g) = Some r → ok r = true →
     trace (fetchSkill w (github g)) = [EFetch (rawUrl g)])
  ∧ (∀ b r, branch g = Some b → b ≠ "" → b ≠ "main" →
     fetch w (rawUrl g) = Some r → ok r = false →
     fetchSkill w (github g)
     = ([EFetch (rawUrl g)],
        Throw (Error ("Failed to fetch from GitHub: " +:+ pretty (status r)))))
  ∧ (fetch w (rawUrl g) = None →
     fetchSkill w (github g)
     = ([EFetch (rawUrl g)], Throw (TypeError "fetch failed")))
  ∧ (trace (fetchSkill w (github g)) = [EFetch (rawUrl g); EFetch (masterUrl g)]
     ↔ effectiveBranch g = "main"
       ∧ ∃ r, fetch w (rawUrl g) = Some r ∧ ok r = false).
Proof.
  rewrite fetchSkill_github. unfold fetchFromGitHub, await_fetch, trace.
  unfold mbind, IO_bind, mret, IO_ret, throw.
  split; [| split; [| split; [| split; [| split]]]].
  - destruct (fetch w (rawUrl g)) as [r |]; [| by left].
    destruct (ok r); [by left |]. simpl.
    destruct (String.eqb (effectiveBranch g) "main"); [| by left].
    destruct (fetch w (masterUrl g)) as [r' |]; [| by right].
    by destruct (ok r'); right.
  - intros r Hr Hok. rewrite Hr, Hok. simpl. split.
    + intros ->. simpl.
      destruct (fetch w (masterUrl g)) as [r' |]; [| done]. by destruct (ok r').
    + destruct (String.eqb_spec (effectiveBranch g) "main") as [Hb | Hb]; [done |].
      by simpl.
  - intros r Hr Hok. by rewrite Hr, Hok.
  - intros b r Hb Hne Hnm Hr Hok. rewrite Hr, Hok. simpl.
    assert (Heff : effectiveBranch g = b).
    { unfold effectiveBranch, Js.orElse, Js.truthy. rewrite Hb.
      by destruct (String.eqb_spec b ""). }
    rewrite Heff. by destruct (String.eqb_spec b "main").
  - by intros ->.
  - split.
    + destruct (fetch w (rawUrl g)) as [r |]; [| done].
      destruct (ok r) eqn:Hok; [done |]. simpl.
      destruct (String.eqb_spec (effectiveBranch g) "main") as [Hb | Hb];
        [| done].
      intros _. split; [done |]. by exists r.
    + intros [Hb (r & Hr & Hok)]. rewrite Hr, Hok, Hb. simpl.
      destruct (fetch w (masterUrl g)) as [r' |]; [| done]. by destruct (ok r').
Qed.

Lemma fetchSkill_github_fallback_policy_witness :
  fetchSkill (exampleWorld [] []) (github acmeDev)
  = ([EFetch "https://raw.githubusercontent.com/acme/tools/dev/lint/SKILL.md"],
     Throw (Error "Failed to fetch from GitHub: 404")).
Proof.
  apply (fetchSkill_github_fallback_policy (exampleWorld [] []) acmeDev)
    with (b := "dev") (r := notFound); done.
Defined.

(** ** Fetching from a local path *)

(** C7: for every local source the fetch first reads [SKILL.md] in the
    resolved path and, only when that read fails, the resolved path itself;
    when the second read succeeds its content is the result and the first
    failure is not reported. *)
Theorem fetchSkill_local_probe (w : World) (p : string) :
  let resolvedPath := Path.resolve (cwd w) p in
  let skillPath := Path.join resolvedPath "SKILL.md" in
  (∀ c, readFile w skillPath = Some c →
     ∃ sk, fetchSkill w (local p) = ([EReadFile skillPath], Ok sk)
           ∧ Skill.content sk = c)
  ∧ (readFile w skillPath = None →
     trace (fetchSkill w (local p)) = [EReadFile skillPath; EReadFile resolvedPath]
     ∧ (∀ c, readFile w resolvedPath = Some c →
          ∃ sk, outcome (fetchSkill w (local p)) = Ok sk ∧ Skill.content sk = c)
     ∧ (readFile w resolvedPath = None →
          outcome (fetchSkill w (local p)) = Throw (SystemError resolvedPath))).
Proof.
  intros resolvedPath skillPath.
  unfold fetchSkill, fetchFromLocal, await_readFile, tryCatch, trace, outcome.
  fold resolvedPath. fold skillPath.
  unfold mbind, IO_bind, mret, IO_ret, liftResult, deriveId.
  split.
  - intros c Hc. rewrite Hc. simpl. eauto.
  - intros Hnone. rewrite Hnone. simpl.
    destruct (readFile w resolvedPath) as [c |] eqn:Hr; simpl.
    + split; [done |]. split; [| done]. intros c' [= <-]. eauto.
    + split; [done |]. by split.
Qed.

Lemma fetchSkill_local_probe_witness :
  (∃ sk, fetchSkill diskWorld (local "./skills/lint")
         = ([EReadFile "/home/user/project/skills/lint/SKILL.md"], Ok sk)
         ∧ Skill.content sk = "# lint")
  ∧ trace (fetchSkill diskWorld (local "notes.md"))
    = [EReadFile "/home/user/project/notes.md/SKILL.md";
       EReadFile "/home/user/project/notes.md"]
  ∧ ∃ sk, outcome (fetchSkill diskWorld (local "notes.md")) = Ok sk
          ∧ Skill.content sk = "# notes".
Proof.
  split; [| split].
  - apply (fetchSkill_local_probe diskWorld "./skills/lint"). reflexivity.
  - apply (fetchSkill_local_probe diskWorld "notes.md"). reflexivity.
  - apply (fetchSkill_local_probe diskWorld "notes.md"); reflexivity.
Defined.

(** ** The derived identifier *)

Lemma split_app (a b : string) :
  Js.split "/" (a +:+ "/" +:+ b) = (Js.split "/" a ++ Js.split "/" b)%list.
Proof.
  induction a as [|c a IH]; [done |].
  change (String c a +:+ "/" +:+ b) with (String c (a +:+ "/" +:+ b)).
  cbn [Js.split]. rewrite IH.
  pose proof (split_nonempty a) as Hne.
  destruct (Ascii.eqb c "/"); [done |].
  by destruct (Js.split "/" a).
Qed.

(** [split] then [pop] yields the final segment. *)
Lemma pop_split_finalSegment (p seg : string) :
  finalSegment p seg → pop (Js.split "/" p) = Some seg.
Proof.
  intros [Hseg [-> | [d ->]]]; unfold pop.
  - by rewrite (split_noSlash seg Hseg).
  - rewrite split_app, (split_noSlash seg Hseg). apply last_snoc.
Qed.

Lemma split_slashes (n : nat) : Js.split "/" (slashes n) = replicate (S n) "".
Proof. induction n as [|n IH]; [done |]. simpl. by rewrite IH. Qed.

Lemma filterBoolean_replicate (n : nat) : Js.filterBoolean (replicate n "") = [].
Proof. by induction n. Qed.

Lemma split_segment_slashes (seg : string) (n : nat) :
  Js.noSlash seg = true →
  Js.split "/" (seg +:+ slashes n) = seg :: replicate n "".
Proof.
  intros Hseg. destruct n as [|n].
  - simpl. rewrite sapp_nil_r. by apply split_noSlash.
  - change (slashes (S n)) with ("/" +:+ slashes n).
    by rewrite (split_app_sep seg _ Hseg), split_slashes.
Qed.

(** [split], [filter(Boolean)] then [pop] yields the last non-empty
    segment, and nothing when there is none. *)
Lemma pop_filter_split_final (p seg : string) :
  finalNonEmptySegment p seg →
  pop (Js.filterBoolean (Js.split "/" p)) = Some seg.
Proof.
  intros [[Ht Hseg]%andb_true_iff [n [-> | [d ->]]]]; unfold pop.
  - rewrite (split_segment_slashes seg n Hseg). unfold Js.filterBoolean.
    simpl. rewrite Ht. fold (Js.filterBoolean (replicate n "")).
    by rewrite filterBoolean_replicate.
  - rewrite split_app, (split_segment_slashes seg n Hseg).
    unfold Js.filterBoolean. rewrite List.filter_app. simpl. rewrite Ht.
    fold (Js.filterBoolean (replicate n "")).
    rewrite filterBoolean_replicate. apply last_snoc.
Qed.

Lemma pop_filter_split_none (p : string) :
  noSegment p → pop (Js.filterBoolean (Js.split "/" p)) = None.
Proof.
  intros [n ->]. rewrite split_slashes. by rewrite filterBoolean_replicate.
Qed.

Lemma fetchSkill_id (w : World) (src : ContentSource) tr sk :
  fetchSkill w src = (tr, Ok sk) → deriveId w src = Ok (Skill.id sk).
Proof.
  unfold fetchSkill, mbind, IO_bind, liftResult, mret, IO_ret.
  destruct (match src with
            | github g => fetchFromGitHub w g
            | url u => fetchFromUrl w u
            | local p => fetchFromLocal w p
            end) as [t [c | e]]; [| done].
  destruct (deriveId w src) as [i | e]; [| done].
  by intros [= _ <-].
Qed.

(** C8, as the code has it: for every item fetched with success the
    identifier is, for a GitHub source with a path, the final segment of the
    path when that segment is not empty and the name of the repository when
    it is; for a GitHub source without a path, the name of the repository;
    for a local source, the last non-empty segment of the path, and the
    empty string when there is none; for a url source, the last non-empty
    segment of the URL's path, and the constant ["skill"] when there is
    none. *)
Theorem fetchSkill_derived_id (w : World) (src : ContentSource) tr sk :
  fetchSkill w src = (tr, Ok sk) →
  match src with
  | github g =>
      match path g with
      | Some p =>
          ∀ seg, finalSegment p seg →
                 Skill.id sk = if Js.truthy seg then seg else repo g
      | None => Skill.id sk = repo g
      end
  | local p =>
      (∀ seg, finalNonEmptySegment p seg → Skill.id sk = seg)
      ∧ (noSegment p → Skill.id sk = "")
  | url u =>
      ∃ pathname, URL_pathname w u = Some pathname
      ∧ (∀ seg, finalNonEmptySegment pathname seg → Skill.id sk = seg)
      ∧ (noSegment pathname → Skill.id sk = "skill")
  end.
Proof.
  intros Hid%fetchSkill_id. destruct src as [g | u | p]; simpl in Hid.
  - injection Hid as Hid. destruct (path g) as [p |]; simpl in Hid; [| done].
    intros seg Hseg. by rewrite (pop_split_finalSegment p seg Hseg) in Hid.
  - destruct (URL_pathname w u) as [pathname |]; [| done].
    injection Hid as Hid. exists pathname. split; [done |]. split.
    + intros seg Hseg. rewrite (pop_filter_split_final _ _ Hseg) in Hid.
      simpl in Hid. destruct Hseg as [[Ht _]%andb_true_iff _]. by rewrite Ht in Hid.
    + intros Hno. by rewrite (pop_filter_split_none _ Hno) in Hid.
  - injection Hid as Hid. unfold Path.basename in Hid. split.
    + intros seg Hseg. fold (pop (Js.filterBoolean (Js.split "/" p))) in Hid.
      by rewrite (pop_filter_split_final _ _ Hseg) in Hid.
    + intros Hno. fold (pop (Js.filterBoolean (Js.split "/" p))) in Hid.
      by rewrite (pop_filter_split_none _ Hno) in Hid.
Qed.

Lemma fetchSkill_lint :
  fetchSkill diskWorld (local "./skills/lint")
  = ([EReadFile "/home/user/project/skills/lint/SKILL.md"], Ok lintSkill).
Proof. vm_compute. reflexivity. Qed.

Lemma fetchSkill_derived_id_witness : Skill.id lintSkill = "lint".
Proof.
  apply (proj1 (fetchSkill_derived_id diskWorld (local "./skills/lint") _ _
                  fetchSkill_lint)).
  split; [reflexivity |]. exists 0%nat. right. by exists "./skills".
Defined.

(** C8 as stated fails: a GitHub path that ends with a slash has an empty
    final segment, and the identifier is then the name of the repository,
    not that segment and not the constant; and the local source [/], which
    has no segment, gets the empty identifier. *)
Lemma fetchSkill_id_trailing_slash :
  parseSource trailingSlashWorld "acme/tools/lint/" = Ok (github trailingSlash)
  ∧ finalSegment "lint/" ""
  ∧ fetchedId (fetchSkill trailingSlashWorld (github trailingSlash)) = Some "tools"
  ∧ parseSource trailingSlashWorld "/" = Ok (local "/")
  ∧ fetchedId (fetchSkill trailingSlashWorld (local "/")) = Some "".
Proof.
  split; [vm_compute; reflexivity |].
  split; [split; [reflexivity | right; by exists "lint"] |].
  repeat split; vm_compute; reflexivity.
Qed.

(** ** Bridge files are never overwritten by default *)

Lemma writeBridgeFiles_keeps_disk (files : list BridgeFile) (root p : string)
    (fs : gmap string string) :
  is_Some (fs !! p) →
  (writeBridgeFiles files root false fs).1 !! p = fs !! p.
Proof.
  revert fs. induction files as [|f files IH]; intros fs Hp; [done |].
  cbn [writeBridgeFiles]. rewrite andb_true_r.
  case_bool_decide as Hdest.
  - specialize (IH fs Hp).
    by destruct (writeBridgeFiles files root false fs).
  - assert (Hne : bridgeDest root f ≠ p).
    { intros Heq. by rewrite Heq in Hdest. }
    specialize (IH (<[bridgeDest root f := bridgeContent f]> fs)).
    rewrite lookup_insert_ne in IH by done. specialize (IH Hp).
    by destruct (writeBridgeFiles files root false _).
Qed.

Lemma writeBridgeFiles_skips_existing (files : list BridgeFile) (root : string)
    (fs : gmap string string) (f : BridgeFile) :
  f ∈ files → is_Some (fs !! bridgeDest root f) →
  filePath f ∈ skipped (writeBridgeFiles files root false fs).2.
Proof.
  revert fs. induction files as [|f' files IH]; intros fs Hin Hf.
  - by apply elem_of_nil in Hin.
  - cbn [writeBridgeFiles]. rewrite andb_true_r.
    apply elem_of_cons in Hin as [<- | Hin].
    + rewrite bool_decide_eq_true_2 by done.
      destruct (writeBridgeFiles files root false fs). simpl. apply list_elem_of_here.
    + case_bool_decide as Hdest.
      * specialize (IH fs Hin Hf).
        destruct (writeBridgeFiles files root false fs). simpl.
        by apply list_elem_of_further.
      * specialize (IH (<[bridgeDest root f' := bridgeContent f']> fs) Hin).
        assert (Hf' : is_Some (<[bridgeDest root f' := bridgeContent f']> fs
                                 !! bridgeDest root f)).
        { rewrite lookup_insert_is_Some.
          destruct (decide (bridgeDest root f' = bridgeDest root f)); auto. }
        specialize (IH Hf').
        by destruct (writeBridgeFiles files root false _).
Qed.

(** C3: a candidate bridge file whose destination already exists is
    reported as skipped by [writeBridgeFiles] with [overwrite = false] and
    the file on disk keeps its content; the generation that follows an
    install calls [writeBridgeFiles] with [overwrite = false], so it changes
    no file that exists. *)
Theorem writeBridgeFiles_never_overwrites (files : list BridgeFile)
    (root : string) (fs : gmap string string) (f : BridgeFile) :
  f ∈ files → is_Some (fs !! bridgeDest root f) →
  (filePath f ∈ skipped (writeBridgeFiles files root false fs).2
   ∧ (writeBridgeFiles files root false fs).1 !! bridgeDest root f
     = fs !! bridgeDest root f)
  ∧ ∀ (AssistantConfig : Type) generateBridgeFiles (assistants : list AssistantConfig),
      (autoGenerateBridgeFiles AssistantConfig generateBridgeFiles root assistants fs).1
      = (writeBridgeFiles (generateBridgeFiles fs assistants) root false fs).1
      ∧ (autoGenerateBridgeFiles AssistantConfig generateBridgeFiles root assistants fs).1
          !! bridgeDest root f
        = fs !! bridgeDest root f.
Proof.
  intros Hin Hf. split.
  - split; [by apply writeBridgeFiles_skips_existing |].
    by apply writeBridgeFiles_keeps_disk.
  - intros A gen assistants.
    assert (Hauto : (autoGenerateBridgeFiles A gen root assistants fs).1
                    = (writeBridgeFiles (gen fs assistants) root false fs).1).
    { unfold autoGenerateBridgeFiles.
      by destruct (writeBridgeFiles (gen fs assistants) root false fs). }
    split; [done |]. rewrite Hauto. by apply writeBridgeFiles_keeps_disk.
Qed.

Lemma writeBridgeFiles_never_overwrites_witness :
  "CLAUDE.md" ∈ skipped (writeBridgeFiles [claudeBridge; geminiBridge]
                           "/home/user/project" false userDisk).2
  ∧ (writeBridgeFiles [claudeBridge; geminiBridge]
       "/home/user/project" false userDisk).1 !! "/home/user/project/CLAUDE.md"
    = Some "my own notes".
Proof.
  apply (writeBridgeFiles_never_overwrites [claudeBridge; geminiBridge]
           "/home/user/project" userDisk claudeBridge).
  - apply list_elem_of_here.
  - exists "my own notes". reflexivity.
Defined.

(** ** The matchers against the regular expressions they stand for *)

Lemma spanWord_spec (s a b : string) :
  Js.spanWord s = (a, b) →
  s = a +:+ b ∧ Js.all Js.isWordOrHyphen a = true ∧ Js.spanWord b = ("", b).
Proof.
  revert a b. induction s as [|c s IH]; intros a b; simpl.
  - by intros [= <- <-].
  - destruct (Js.isWordOrHyphen c) eqn:Hc.
    + destruct (Js.spanWord s) as [a' b'] eqn:Hs. intros [= <- <-].
      destruct (IH a' b' eq_refl) as (-> & Ha & Hb). simpl. by rewrite Hc.
    + intros [= <- <-]. simpl. by rewrite Hc.
Qed.

(** [/^[\w-]+\/[\w-]+$/] matches exactly the strings [owner/repo]. *)
Lemma testOwnerRepo_spec (s : string) :
  Js.testOwnerRepo s = true
  ↔ ∃ o r, Js.isWord o = true ∧ Js.isWord r = true ∧ s = o +:+ "/" +:+ r.
Proof.
  split.
  - unfold Js.testOwnerRepo.
    destruct (Js.spanWord s) as [o rest] eqn:Hs.
    apply spanWord_spec in Hs as (-> & Ho & _).
    intros [Hto Hrest]%andb_true_iff.
    destruct rest as [|c r']; [done |].
    destruct (Ascii.eqb_spec c "/") as [-> | Hc];
      [| by destruct c as [[] [] [] [] [] [] [] []]].
    destruct (Js.spanWord r') as [n r''] eqn:Hr.
    apply spanWord_spec in Hr as (-> & Hn & _).
    apply andb_true_iff in Hrest as [Htn ->%String.eqb_eq].
    exists o, n. unfold Js.isWord. rewrite Hto, Ho, Htn, Hn.
    by rewrite sapp_nil_r.
  - intros (o & r & Ho & Hr & ->). by apply testOwnerRepo_owner_repo.
Qed.

(** [/^[\w-]+\/[\w-]+\//] matches exactly the strings that start with
    [owner/repo/]. *)
Lemma testOwnerRepoPath_spec (s : string) :
  Js.testOwnerRepoPath s = true
  ↔ ∃ o r rest, Js.isWord o = true ∧ Js.isWord r = true
                ∧ s = o +:+ "/" +:+ r +:+ "/" +:+ rest.
Proof.
  split.
  - unfold Js.testOwnerRepoPath.
    destruct (Js.spanWord s) as [o rest] eqn:Hs.
    apply spanWord_spec in Hs as (-> & Ho & _).
    intros [Hto Hrest]%andb_true_iff.
    destruct rest as [|c r']; [done |].
    destruct (Ascii.eqb_spec c "/") as [-> | Hc];
      [| by destruct c as [[] [] [] [] [] [] [] []]].
    destruct (Js.spanWord r') as [n r''] eqn:Hr.
    apply spanWord_spec in Hr as (-> & Hn & _).
    apply andb_true_iff in Hrest as [Htn Hsl].
    destruct r'' as [|c' rest]; [done |]. simpl in Hsl.
    apply andb_true_iff in Hsl as [->%Ascii.eqb_eq _].
    exists o, n, rest. unfold Js.isWord. by rewrite Hto, Ho, Htn, Hn.
  - intros (o & r & rest & [Hto Ho]%andb_true_iff & [Htr Hr]%andb_true_iff & ->).
    unfold Js.testOwnerRepoPath.
    rewrite (spanWord_app o ("/" +:+ r +:+ "/" +:+ rest) Ho (spanWord_slash _)).
    simpl. change (String "/" rest) with ("/" +:+ rest).
    rewrite (spanWord_app r ("/" +:+ rest) Hr (spanWord_slash _)).
    by rewrite Hto, Htr.
Qed.

(** ** Owners and repositories are path segments *)

Lemma split_all_noSlash (s : string) :
  Forall (λ seg, Js.noSlash seg = true) (Js.split "/" s).
Proof.
  induction s as [|c s IH]; simpl; [by constructor |].
  destruct (Ascii.eqb c "/") eqn:Hc; [by constructor |].
  destruct IH as [|seg segs Hseg Hsegs]; constructor; try done.
  - unfold Js.noSlash. simpl. by rewrite Hc.
  - unfold Js.noSlash in *. simpl. by rewrite Hc.
Qed.

Lemma Forall_filterBoolean (P : string → Prop) (l : list string) :
  Forall P l → Forall P (Js.filterBoolean l).
Proof.
  unfold Js.filterBoolean. induction 1 as [|x l Hx Hl IH]; simpl; [done |].
  destruct (Js.truthy x); [by constructor | done].
Qed.

Lemma noSlash_default_lookup (l : list string) (i : nat) :
  Forall (λ seg, Js.noSlash seg = true) l →
  Js.noSlash (default "" (l !! i)) = true.
Proof.
  intros Hl. destruct (l !! i) as [seg |] eqn:Hi; [| done].
  by apply (Forall_lookup_1 _ _ _ _ Hl Hi).
Qed.

(** Every GitHub source that [parseSource] returns has an owner and a
    repository without slash. *)
Lemma parseSource_github_noSlash (w : World) (s : string) (g : GitHubSource) :
  parseSource w s = Ok (github g) →
  Js.noSlash (owner g) = true ∧ Js.noSlash (repo g) = true.
Proof.
  unfold parseSource.
  destruct (_ || _ || _); [done |].
  destruct (Js.includes s "github.com").
  { unfold parseGitHubUrl.
    destruct (URL_pathname w s) as [pathname |]; [| done].
    destruct (Nat.ltb _ 2); [done |]. intros [= <-]. simpl.
    split; apply noSlash_default_lookup, Forall_filterBoolean, split_all_noSlash. }
  destruct (Js.testOwnerRepo s).
  { intros [= <-]. simpl.
    split; apply noSlash_default_lookup, split_all_noSlash. }
  destruct (Js.testOwnerRepoPath s).
  { intros [= <-]. simpl.
    split; apply noSlash_default_lookup, split_all_noSlash. }
  by destruct (_ || _).
Qed.

(** ** The primitives on the examples of their documentation *)

Example split_example : Js.split "/" "a/b//c/" = ["a"; "b"; ""; "c"; ""].
Proof. reflexivity. Qed.

Example replace_example :
  Js.replace "x/main/y/main/z" "/main/" "/master/" = "x/master/y/main/z".
Proof. reflexivity. Qed.

Example removeAtEnd_example :
  Js.removeAtEnd "skills/SKILL.md/lint/SKILL.md" "/SKILL.md" = "skills/SKILL.md/lint"
  ∧ Js.removeAtEnd "SKILL.md" "/SKILL.md" = "SKILL.md".
Proof. split; reflexivity. Qed.

Example resolve_example :
  Path.resolve "/home/u" "./a/../b/" = "/home/u/b"
  ∧ Path.resolve "/home/u" "/x/./y" = "/x/y"
  ∧ Path.resolve "/home/u" "../../../z" = "/z"
  ∧ Path.resolve "/home/u" "/" = "/".
Proof. repeat split; reflexivity. Qed.

Example join_example :
  Path.join "/home/u/b" "SKILL.md" = "/home/u/b/SKILL.md"
  ∧ Path.join "/" "SKILL.md" = "/SKILL.md".
Proof. split; reflexivity. Qed.

Example basename_example :
  Path.basename "/a/b//" = "b" ∧ Path.basename "./" = "."
  ∧ Path.basename "/" = "" ∧ Path.basename "skill.md" = "skill.md".
Proof. repeat split; reflexivity. Qed.

Example hasScheme_example :
  Url.hasScheme "https://github.com/a/b" = true
  ∧ Url.hasScheme "github.com/a/b" = false
  ∧ Url.hasScheme "www.github.com:80/a" = true
  ∧ Url.hasScheme "//github.com/a/b" = false.
Proof. repeat split; reflexivity. Qed.

Example parseSource_examples :
  parseSource (exampleWorld [] []) "acme/tools/skills/lint"
  = Ok (github {| owner := "acme"; repo := "tools"; branch := None;
                  path := Some "skills/lint" |})
  ∧ parseSource (exampleWorld [] []) "https://example.com/skills/review.md"
    = Ok (url "https://example.com/skills/review.md")
  ∧ parseSource (exampleWorld [] []) "https://github.com/acme/tools"
    = Ok (github {| owner := "acme"; repo := "tools"; branch := None;
                    path := None |})
  ∧ parseSource (exampleWorld [] []) "https://github.com/acme/tools/tree/dev"
    = Ok (github {| owner := "acme"; repo := "tools"; branch := Some "dev";
                    path := None |}).
Proof. repeat split; vm_compute; reflexivity. Qed.

Example fetchSkill_url_example :
  fetchedId (fetchSkill diskWorld (url "https://example.com/skills/review.md"))
  = Some "review.md"
  ∧ fetchedId (fetchSkill acmeMasterWorld (github acmeTools)) = Some "tools".
Proof. split; vm_compute; reflexivity. Qed.

(** ** More on the source-string grammar *)

Lemma testOwnerRepo_with_path (o r rest : string) :
  Js.isWord o = true → Js.isWord r = true →
  Js.testOwnerRepo (o +:+ "/" +:+ r +:+ "/" +:+ rest) = false.
Proof.
  intros [Hto Ho]%andb_true_iff [Htr Hr]%andb_true_iff.
  unfold Js.testOwnerRepo.
  rewrite (spanWord_app o ("/" +:+ r +:+ "/" +:+ rest) Ho (spanWord_slash _)).
  simpl. change (String "/" rest) with ("/" +:+ rest).
  rewrite (spanWord_app r ("/" +:+ rest) Hr (spanWord_slash _)).
  simpl. by destruct (Js.truthy o), (Js.truthy r).
Qed.

(** X1: for every string [owner/repo/rest] that does not mention
    github.com, whatever [rest] is, [parseSource] returns the GitHub source
    with that owner and repo, no branch, and [rest] as path, unchanged. *)
Theorem parseSource_shorthand_path (w : World) (o r rest : string) :
  Js.isWord o = true → Js.isWord r = true →
  Js.includes (o +:+ "/" +:+ r +:+ "/" +:+ rest) "github.com" = false →
  parseSource w (o +:+ "/" +:+ r +:+ "/" +:+ rest)
  = Ok (github {| owner := o; repo := r; branch := None; path := Some rest |}).
Proof.
  intros Ho Hr Hin. unfold parseSource.
  pose proof (isWord_not_local o ("/" +:+ r +:+ "/" +:+ rest) Ho) as Hloc.
  unfold isLocalPath in Hloc. rewrite Hloc, Hin.
  rewrite (testOwnerRepo_with_path o r rest Ho Hr).
  assert (Hp : Js.testOwnerRepoPath (o +:+ "/" +:+ r +:+ "/" +:+ rest) = true).
  { apply testOwnerRepoPath_spec. by exists o, r, rest. }
  rewrite Hp.
  rewrite (split_app_sep o _ (isWord_noSlash o Ho)).
  rewrite (split_app_sep r _ (isWord_noSlash r Hr)).
  cbn -[Js.join Js.split]. by rewrite drop_0, join_split.
Qed.

Lemma parseSource_shorthand_path_witness :
  parseSource (exampleWorld [] []) "acme/tools/skills//lint/"
  = Ok (github {| owner := "acme"; repo := "tools"; branch := None;
                  path := Some "skills//lint/" |}).
Proof.
  apply (parseSource_shorthand_path (exampleWorld [] []) "acme" "tools"
           "skills//lint/"); reflexivity.
Defined.

(** X2: every string that starts with [http://] or [https://] and does not
    mention github.com is a url source holding the string itself; it is
    never read as a shorthand. *)
Theorem parseSource_generic_url (w : World) (rest : string) (s : string) :
  s = "http://" +:+ rest ∨ s = "https://" +:+ rest →
  Js.includes s "github.com" = false →
  parseSource w s = Ok (url s).
Proof.
  intros Hs Hin. unfold parseSource. rewrite Hin.
  by destruct Hs as [-> | ->].
Qed.

Lemma parseSource_generic_url_witness :
  parseSource (exampleWorld [] []) "http://example.com/a/b"
  = Ok (url "http://example.com/a/b").
Proof.
  apply (parseSource_generic_url (exampleWorld [] []) "example.com/a/b");
    [by left | reflexivity].
Defined.

(** ** Invariants of parsed GitHub sources *)

Lemma filterBoolean_segments (l : list string) :
  Forall (λ seg, Js.noSlash seg = true) l →
  Forall (λ seg, Js.isSegment seg = true) (Js.filterBoolean l).
Proof.
  unfold Js.filterBoolean. induction 1 as [|x l Hx Hl IH]; simpl; [done |].
  destruct (Js.truthy x) eqn:Ht; [| done].
  constructor; [| done]. unfold Js.isSegment. by rewrite Ht, Hx.
Qed.

Lemma pathParts_segments (pathname : string) :
  Forall (λ seg, Js.isSegment seg = true)
    (Js.filterBoolean (Js.split "/" pathname)).
Proof. apply filterBoolean_segments, split_all_noSlash. Qed.

Lemma isWord_isSegment (s : string) : Js.isWord s = true → Js.isSegment s = true.
Proof.
  intros H. pose proof (isWord_noSlash s H) as Hn.
  apply andb_true_iff in H as [Ht _]. unfold Js.isSegment. by rewrite Ht, Hn.
Qed.

Lemma join_segments_cons (c : ascii) (x : string) (l : list string) :
  ∃ t, Js.join "/" (String c x :: l) = String c t.
Proof. destruct l as [|y l]; simpl; eauto. Qed.

Lemma removeAtEnd_keeps_head (c : ascii) (t suf : string) :
  String c t ≠ suf → ∃ t', Js.removeAtEnd (String c t) suf = String c t'.
Proof.
  intros Hne. cbn [Js.removeAtEnd].
  destruct (String.eqb_spec (String c t) suf); [done | eauto].
Qed.

(** [parseGitHubUrl] by the shape of the array of path segments. *)
Lemma parseGitHubUrl_parts (w : World) (u pathname : string) :
  URL_pathname w u = Some pathname →
  parseGitHubUrl w u
  = match Js.filterBoolean (Js.split "/" pathname) with
    | o :: r :: rest =>
        Ok {| owner := o; repo := r;
              branch :=
                match rest with
                | kind :: b :: _ =>
                    if String.eqb kind "tree" || String.eqb kind "blob"
                    then Some b else None
                | _ => None
                end;
              path :=
                match rest with
                | kind :: _ :: x :: xs =>
                    if String.eqb kind "tree" || String.eqb kind "blob"
                    then Some (Js.removeAtEnd (Js.join "/" (x :: xs)) "/SKILL.md")
                    else None
                | _ => None
                end |}
    | _ => Throw (Error ("Invalid GitHub URL: " +:+ u))
    end.
Proof.
  intros Hu. unfold parseGitHubUrl. rewrite Hu.
  destruct (Js.filterBoolean (Js.split "/" pathname)) as [|o [|r rest]];
    [done | done |].
  destruct rest as [|kind [|b [|x xs]]]; cbn -[Js.join Js.removeAtEnd String.eqb].
  - done.
  - by destruct (_ || _).
  - by destruct (_ || _).
  - by destruct (_ || _).
Qed.

(** X3: a GitHub source returned by [parseSource] has an owner and a
    repository that are non-empty and hold no slash; and when the string
    went through the GitHub URL parser, a path, if present, is not empty. *)
Theorem parseSource_github_segments (w : World) (s : string) (g : GitHubSource) :
  parseSource w s = Ok (github g) →
  Js.isSegment (owner g) = true ∧ Js.isSegment (repo g) = true
  ∧ (Js.includes s "github.com" = true →
     ∀ p, path g = Some p → Js.truthy p = true).
Proof.
  unfold parseSource.
  destruct (_ || _ || _); [done |].
  destruct (Js.includes s "github.com") eqn:Hin.
  { destruct (URL_pathname w s) as [pathname |] eqn:Hu;
      [| by unfold parseGitHubUrl; rewrite Hu].
    rewrite (parseGitHubUrl_parts w s pathname Hu).
    pose proof (pathParts_segments pathname) as Hsegs.
    destruct (Js.filterBoolean (Js.split "/" pathname)) as [|o [|r rest]];
      [done | done |].
    apply Forall_cons in Hsegs as [Ho Hsegs].
    apply Forall_cons in Hsegs as [Hr Hsegs].
    intros [= <-]. cbn [owner repo path].
    split; [done |]. split; [done |]. intros _ p.
    destruct rest as [|kind [|b [|x xs]]]; [done | done | done |].
    destruct (_ || _); [| done]. intros [= <-].
    do 2 apply Forall_cons in Hsegs as [_ Hsegs].
    apply Forall_cons in Hsegs as [[Hx Hxs]%andb_true_iff _].
    destruct x as [|c x]; [done |].
    change (match xs with
            | [] => String c x
            | _ :: _ => String c x +:+ String "/" (Js.join "/" xs)
            end) with (Js.join "/" (String c x :: xs)).
    destruct (join_segments_cons c x xs) as [t ->].
    destruct (removeAtEnd_keeps_head c t "/SKILL.md") as [t' ->]; [| done].
    intros [= -> _]. by cbn in Hxs. }
  destruct (Js.testOwnerRepo s) eqn:Hor.
  { apply testOwnerRepo_spec in Hor as (o & r & Ho & Hr & ->).
    rewrite (split_app_sep o r (isWord_noSlash o Ho)).
    rewrite (split_noSlash r (isWord_noSlash r Hr)).
    intros [= <-]. cbn [owner repo path lookup list_lookup default from_option].
    by rewrite (isWord_isSegment o Ho), (isWord_isSegment r Hr). }
  destruct (Js.testOwnerRepoPath s) eqn:Hop.
  { apply testOwnerRepoPath_spec in Hop as (o & r & rest & Ho & Hr & ->).
    rewrite (split_app_sep o _ (isWord_noSlash o Ho)).
    rewrite (split_app_sep r _ (isWord_noSlash r Hr)).
    intros [= <-]. cbn [owner repo path lookup list_lookup default from_option].
    by rewrite (isWord_isSegment o Ho), (isWord_isSegment r Hr). }
  by destruct (_ || _).
Qed.

Lemma parseSource_github_segments_witness :
  Js.isSegment "acme" = true ∧ Js.isSegment "tools" = true
  ∧ (Js.includes "https://github.com/acme/tools/tree/dev/skills/lint" "github.com" = true →
     ∀ p, Some "skills/lint" = Some p → Js.truthy p = true).
Proof.
  apply (parseSource_github_segments (exampleWorld [] [])
           "https://github.com/acme/tools/tree/dev/skills/lint"
           {| owner := "acme"; repo := "tools"; branch := Some "dev";
              path := Some "skills/lint" |}).
  vm_compute. reflexivity.
Defined.

(** X4: a branch in a source returned by [parseSource] comes from nowhere
    but a github.com URL: it is the non-empty segment that follows [tree] or
    [blob] in third position of the URL's path.  A shorthand never has a
    branch. *)
Theorem parseSource_branch_origin (w : World) (s : string) (g : GitHubSource)
    (b : string) :
  parseSource w s = Ok (github g) → branch g = Some b →
  Js.includes s "github.com" = true
  ∧ Js.isSegment b = true
  ∧ ∃ pathname o r kind rest,
      URL_pathname w s = Some pathname
      ∧ Js.filterBoolean (Js.split "/" pathname) = o :: r :: kind :: b :: rest
      ∧ (kind = "tree" ∨ kind = "blob").
Proof.
  unfold parseSource.
  destruct (_ || _ || _); [done |].
  destruct (Js.includes s "github.com") eqn:Hin.
  { destruct (URL_pathname w s) as [pathname |] eqn:Hu;
      [| by unfold parseGitHubUrl; rewrite Hu].
    rewrite (parseGitHubUrl_parts w s pathname Hu).
    pose proof (pathParts_segments pathname) as Hsegs.
    destruct (Js.filterBoolean (Js.split "/" pathname)) as [|o [|r rest]] eqn:Hparts;
      [done | done |].
    intros [= <-]. cbn [branch].
    destruct rest as [|kind [|b' rest]]; [done | done |].
    destruct (String.eqb_spec kind "tree") as [-> | Hnt];
      [| destruct (String.eqb_spec kind "blob") as [-> | Hnb]; [| done]];
      cbn [orb]; intros [= ->]; (split; [done |]);
      do 3 apply Forall_cons in Hsegs as [_ Hsegs];
      apply Forall_cons in Hsegs as [Hb _]; (split; [done |]).
    - exists pathname, o, r, "tree", rest. auto.
    - exists pathname, o, r, "blob", rest. auto. }
  destruct (Js.testOwnerRepo s); [by intros [= <-] |].
  destruct (Js.testOwnerRepoPath s); [by intros [= <-] |].
  by destruct (_ || _).
Qed.

Lemma parseSource_branch_origin_witness :
  Js.includes "https://github.com/acme/tools/tree/dev/skills/lint" "github.com" = true
  ∧ Js.isSegment "dev" = true
  ∧ ∃ pathname o r kind rest,
      URL_pathname (exampleWorld [] [])
        "https://github.com/acme/tools/tree/dev/skills/lint" = Some pathname
      ∧ Js.filterBoolean (Js.split "/" pathname) = o :: r :: kind :: "dev" :: rest
      ∧ (kind = "tree" ∨ kind = "blob").
Proof.
  apply (parseSource_branch_origin (exampleWorld [] [])
           "https://github.com/acme/tools/tree/dev/skills/lint"
           {| owner := "acme"; repo := "tools"; branch := Some "dev";
              path := Some "skills/lint" |} "dev"); [| reflexivity].
  vm_compute. reflexivity.
Defined.

(** X5: what a github.com URL gives by the number and kind of its path
    segments: two segments, three segments, or a third segment other than
    [tree] and [blob] (an issue, a pull request, ...) give the repository
    with neither branch nor path; [tree] or [blob] followed by one segment
    gives that segment as branch and no path. *)
Theorem parseSource_github_url_shapes (w : World) (s pathname o r : string) :
  isLocalPath s = false → Js.includes s "github.com" = true →
  URL_pathname w s = Some pathname →
  let parts := Js.filterBoolean (Js.split "/" pathname) in
  let bare := {| owner := o; repo := r; branch := None; path := None |} in
  (parts = [o; r] → parseSource w s = Ok (github bare))
  ∧ (∀ kind, parts = [o; r; kind] → parseSource w s = Ok (github bare))
  ∧ (∀ kind rest, parts = o :: r :: kind :: rest →
       kind ≠ "tree" → kind ≠ "blob" → parseSource w s = Ok (github bare))
  ∧ (∀ kind b, parts = [o; r; kind; b] → kind = "tree" ∨ kind = "blob" →
       parseSource w s
       = Ok (github {| owner := o; repo := r; branch := Some b; path := None |})).
Proof.
  intros Hloc Hin Hu parts bare. subst parts bare.
  unfold parseSource. unfold isLocalPath in Hloc. rewrite Hloc, Hin.
  rewrite (parseGitHubUrl_parts w s pathname Hu).
  split; [| split; [| split]].
  - by intros ->.
  - by intros kind ->.
  - intros kind rest -> Hnt Hnb.
    apply String.eqb_neq in Hnt, Hnb. rewrite Hnt, Hnb. cbn [orb].
    by destruct rest as [|b [|x xs]].
  - intros kind b -> Hkind.
    assert (Hk : String.eqb kind "tree" || String.eqb kind "blob" = true)
      by (by destruct Hkind as [-> | ->]).
    by rewrite Hk.
Qed.

Lemma parseSource_github_url_shapes_witness :
  parseSource (exampleWorld [] []) "https://github.com/acme/tools/issues/12"
  = Ok (github {| owner := "acme"; repo := "tools"; branch := None; path := None |}).
Proof.
  apply (parseSource_github_url_shapes (exampleWorld [] [])
           "https://github.com/acme/tools/issues/12" "/acme/tools/issues/12"
           "acme" "tools" eq_refl eq_refl eq_refl) with (kind := "issues") (rest := ["12"]);
    done.
Defined.

(** ** Display strings *)

(** X6: the display string of what [parseSource] returns for a string that
    does not mention github.com is the string itself for a url source, the
    string after [local:] for a local source, and the string after [github:]
    for a shorthand, except that the shorthand [owner/repo/], whose path is
    empty, is shown without its last slash. *)
Theorem getSourceDisplayString_parseSource (w : World) (s : string)
    (src : ContentSource) :
  parseSource w s = Ok src → Js.includes s "github.com" = false →
  match src with
  | local _ => getSourceDisplayString src = "local:" +:+ s
  | url _ => getSourceDisplayString src = s
  | github g =>
      (path g ≠ Some "" → getSourceDisplayString src = "github:" +:+ s)
      ∧ (path g = Some "" → getSourceDisplayString src +:+ "/" = "github:" +:+ s)
  end.
Proof.
  unfold parseSource. intros Hparse Hin. rewrite Hin in Hparse.
  destruct (_ || _ || _); [by injection Hparse as <- |].
  destruct (Js.testOwnerRepo s) eqn:Hor.
  { apply testOwnerRepo_spec in Hor as (o & r & Ho & Hr & ->).
    rewrite (split_app_sep o r (isWord_noSlash o Ho)) in Hparse.
    rewrite (split_noSlash r (isWord_noSlash r Hr)) in Hparse.
    injection Hparse as <-. cbn -[String.append].
    split; [| done]. intros _. by rewrite sapp_nil_r. }
  destruct (Js.testOwnerRepoPath s) eqn:Hop.
  { apply testOwnerRepoPath_spec in Hop as (o & r & rest & Ho & Hr & ->).
    rewrite (split_app_sep o _ (isWord_noSlash o Ho)) in Hparse.
    rewrite (split_app_sep r _ (isWord_noSlash r Hr)) in Hparse.
    cbn -[Js.join Js.split String.append] in Hparse.
    rewrite drop_0, join_split in Hparse.
    injection Hparse as <-. cbn -[String.append].
    destruct rest as [|c rest]; cbn -[String.append].
    - split; [done |]. intros _. by rewrite !sapp_assoc.
    - by split. }
  destruct (_ || _); [by injection Hparse as <- | done].
Qed.

Lemma getSourceDisplayString_parseSource_witness :
  (Some "skills/lint" ≠ Some "" →
   getSourceDisplayString
     (github {| owner := "acme"; repo := "tools"; branch := None;
                path := Some "skills/lint" |})
   = "github:acme/tools/skills/lint")
  ∧ (Some "skills/lint" = Some "" →
     getSourceDisplayString
       (github {| owner := "acme"; repo := "tools"; branch := None;
                  path := Some "skills/lint" |}) +:+ "/"
     = "github:acme/tools/skills/lint").
Proof.
  apply (getSourceDisplayString_parseSource (exampleWorld [] [])
           "acme/tools/skills/lint"
           (github {| owner := "acme"; repo := "tools"; branch := None;
                      path := Some "skills/lint" |})); vm_compute; reflexivity.
Defined.

(** ** From a GitHub page to the raw file *)

Lemma parseSource_tree_result (w : World) (kind O R B P : string) :
  kind = "tree" ∨ kind = "blob" →
  Js.isSegment O = true → Js.isSegment R = true → Js.isSegment B = true →
  isPath P = true →
  URL_pathname w (treeUrl kind O R B P) = Some (treePathname kind O R B P) →
  parseSource w (treeUrl kind O R B P)
  = Ok (github {| owner := O; repo := R; branch := Some B;
                  path := Some (Js.removeAtEnd P "/SKILL.md") |}).
Proof.
  intros Hkind HO HR HB HP Hurl.
  assert (Hk : Js.noSlash kind = true) by (by destruct Hkind as [-> | ->]).
  assert (Hkt : Js.truthy kind = true) by (by destruct Hkind as [-> | ->]).
  assert (Hkk : String.eqb kind "tree" || String.eqb kind "blob" = true)
    by (by destruct Hkind as [-> | ->]).
  assert (Hloc : isLocalPath (treeUrl kind O R B P) = false) by done.
  assert (Hin : Js.includes (treeUrl kind O R B P) "github.com" = true) by done.
  unfold parseSource. unfold isLocalPath in Hloc. rewrite Hloc, Hin.
  rewrite (parseGitHubUrl_parts _ _ _ Hurl).
  rewrite (split_treePathname kind O R B P HO HR HB Hk).
  apply andb_true_iff in HO as [HOt _], HR as [HRt _], HB as [HBt _].
  unfold Js.filterBoolean. cbn [List.filter]. rewrite HOt, HRt, Hkt, HBt.
  change (Js.truthy "") with false. cbn [List.filter].
  fold (Js.filterBoolean (Js.split "/" P)). rewrite (filterBoolean_all _ HP).
  pose proof (split_nonempty P) as Hne. pose proof (join_split P) as Hj.
  destruct (Js.split "/" P) as [|seg segs]; [done |].
  by rewrite Hkk, Hj.
Qed.

Lemma isPath_head (P : string) :
  isPath P = true → ∃ c t, P = String c t ∧ Ascii.eqb c "/" = false.
Proof.
  destruct P as [|c t]; [done |]. unfold isPath. cbn [Js.split].
  destruct (Ascii.eqb c "/") eqn:Hc; [done | eauto].
Qed.

Lemma isPath_skill_file (P : string) :
  isPath P = true → isPath (P +:+ "/SKILL.md") = true.
Proof.
  unfold isPath. intros HP.
  change (P +:+ "/SKILL.md") with (P +:+ "/" +:+ "SKILL.md").
  rewrite split_app, forallb_app, HP. reflexivity.
Qed.

Lemma removeAtEnd_not_endsWith (s suf : string) :
  endsWith s suf = false → Js.removeAtEnd s suf = s.
Proof.
  induction s as [|c s IH]; cbn [endsWith Js.removeAtEnd].
  - by destruct (String.eqb "" suf).
  - destruct (String.eqb (String c s) suf); [done |].
    cbn [orb]. intros H. by rewrite (IH H).
Qed.

(** X7: the address of a [SKILL.md] inside a directory, as the GitHub site
    shows it ([https://github.com/O/R/blob/B/P/SKILL.md]), is parsed to a
    source whose raw-content URL is that same file
    ([https://raw.githubusercontent.com/O/R/B/P/SKILL.md]), and so is the
    address of the directory [P] itself. *)
Theorem rawUrl_of_github_page (w : World) (kind O R B P : string) :
  kind = "tree" ∨ kind = "blob" →
  Js.isSegment O = true → Js.isSegment R = true → Js.isSegment B = true →
  isPath P = true → endsWith P "/SKILL.md" = false →
  let raw := "https://raw.githubusercontent.com/" +:+ O +:+ "/" +:+ R +:+ "/"
               +:+ B +:+ "/" +:+ P +:+ "/SKILL.md" in
  (URL_pathname w (treeUrl kind O R B P) = Some (treePathname kind O R B P) →
   ∃ g, parseSource w (treeUrl kind O R B P) = Ok (github g) ∧ rawUrl g = raw)
  ∧ (URL_pathname w (treeUrl kind O R B (P +:+ "/SKILL.md"))
     = Some (treePathname kind O R B (P +:+ "/SKILL.md")) →
     ∃ g, parseSource w (treeUrl kind O R B (P +:+ "/SKILL.md")) = Ok (github g)
          ∧ rawUrl g = raw).
Proof.
  intros Hkind HO HR HB HP Hnot raw.
  assert (HBt : Js.truthy B = true) by (by apply andb_true_iff in HB as [? _]).
  assert (HPt : Js.truthy P = true) by (by destruct (isPath_head P HP) as (c & t & -> & _)).
  assert (Hraw : ∀ g, owner g = O → repo g = R → branch g = Some B →
                      path g = Some P → rawUrl g = raw).
  { intros g Hgo Hgr Hgb Hgp. unfold rawUrl, rawUrlOn, effectiveBranch, skillFilePath.
    rewrite Hgo, Hgr, Hgb, Hgp. unfold Js.orElse. by rewrite HBt, HPt. }
  split; intros Hurl.
  - eexists. split; [by apply parseSource_tree_result |].
    apply Hraw; try done. cbn [path]. by rewrite removeAtEnd_not_endsWith.
  - eexists. split.
    + apply parseSource_tree_result; try done. by apply isPath_skill_file.
    + apply Hraw; try done. cbn [path]. by rewrite removeAtEnd_app.
Qed.

Lemma rawUrl_of_github_page_witness :
  ∃ g, parseSource (exampleWorld [] [])
         "https://github.com/acme/tools/blob/dev/skills/lint/SKILL.md" = Ok (github g)
       ∧ rawUrl g = "https://raw.githubusercontent.com/acme/tools/dev/skills/lint/SKILL.md".
Proof.
  apply (rawUrl_of_github_page (exampleWorld [] []) "blob" "acme" "tools" "dev"
           "skills/lint"); try reflexivity. by right.
Defined.

(** ** Requests issued by a fetch *)

Lemma fetchSkill_trace (w : World) (src : ContentSource) :
  trace (fetchSkill w src)
  = trace (match src with
           | github g => fetchFromGitHub w g
           | url u => fetchFromUrl w u
           | local p => fetchFromLocal w p
           end).
Proof.
  unfold fetchSkill, trace, mbind, IO_bind, liftResult, mret, IO_ret.
  destruct (match src with
            | github g => fetchFromGitHub w g
            | url u => fetchFromUrl w u
            | local p => fetchFromLocal w p
            end) as [t [c | e]]; [| done].
  destruct (deriveId w src); simpl; by rewrite app_nil_r.
Qed.

Lemma fetchFromGitHub_trace (w : World) (g : GitHubSource) :
  Forall (λ e, isFetch e = true) (trace (fetchFromGitHub w g))
  ∧ (List.length (trace (fetchFromGitHub w g)) ≤ 2)%nat.
Proof.
  unfold fetchFromGitHub, await_fetch, trace, mbind, IO_bind, mret, IO_ret, throw.
  destruct (fetch w (rawUrl g)) as [r |]; [| split; [by repeat constructor | simpl; lia]].
  destruct (ok r); simpl; [split; [by repeat constructor | simpl; lia] |].
  destruct (String.eqb (effectiveBranch g) "main");
    [| split; [by repeat constructor | simpl; lia]].
  destruct (fetch w (masterUrl g)) as [r' |];
    [destruct (ok r') |]; simpl; (split; [by repeat constructor | simpl; lia]).
Qed.

Lemma fetchFromUrl_trace (w : World) (u : string) :
  trace (fetchFromUrl w u) = [EFetch u].
Proof.
  unfold fetchFromUrl, await_fetch, trace, mbind, IO_bind, mret, IO_ret, throw.
  destruct (fetch w u) as [r |]; [| done]. by destruct (ok r).
Qed.

Lemma fetchFromLocal_trace (w : World) (p : string) :
  Forall (λ e, isReadFile e = true) (trace (fetchFromLocal w p))
  ∧ (List.length (trace (fetchFromLocal w p)) ≤ 2)%nat.
Proof.
  unfold fetchFromLocal, await_readFile, tryCatch, trace.
  destruct (readFile w _); simpl; (split; [by repeat constructor | simpl; lia]).
Qed.

Lemma parseSource_local_inv (w : World) (s p : string) :
  parseSource w s = Ok (local p) → isLocalPath s = true.
Proof.
  unfold parseSource, isLocalPath.
  destruct (_ || _ || _); [done |].
  destruct (Js.includes s "github.com"); [by destruct (parseGitHubUrl w s) |].
  destruct (Js.testOwnerRepo s); [done |].
  destruct (Js.testOwnerRepoPath s); [done |].
  by destruct (_ || _).
Qed.

Lemma fetchSkillFromSource_ok (w : World) (s : string) (src : ContentSource) :
  parseSource w s = Ok src → fetchSkillFromSource w s = fetchSkill w src.
Proof.
  intros H. unfold fetchSkillFromSource, liftResult, mbind, IO_bind.
  rewrite H. by destruct (fetchSkill w src).
Qed.

(** X8: [fetchSkillFromSource] issues no request at all for a string that
    does not parse and reports the parse error as it is; for a local path it
    only reads the disk, for every other string it only uses the network;
    and it never issues more than two requests. *)
Theorem fetchSkillFromSource_effects (w : World) (s : string) :
  (∀ e, parseSource w s = Throw e → fetchSkillFromSource w s = ([], Throw e))
  ∧ (isLocalPath s = true →
     Forall (λ e, isReadFile e = true) (trace (fetchSkillFromSource w s)))
  ∧ (isLocalPath s = false →
     Forall (λ e, isFetch e = true) (trace (fetchSkillFromSource w s)))
  ∧ (List.length (trace (fetchSkillFromSource w s)) ≤ 2)%nat.
Proof.
  split.
  { intros e He. unfold fetchSkillFromSource, liftResult, mbind, IO_bind.
    by rewrite He. }
  destruct (parseSource w s) as [src | e] eqn:Hparse.
  2: { unfold fetchSkillFromSource, liftResult, mbind, IO_bind, trace.
       rewrite Hparse. simpl. repeat split; try constructor. lia. }
  rewrite (fetchSkillFromSource_ok w s src Hparse), fetchSkill_trace.
  destruct src as [g | u | p].
  - pose proof (fetchFromGitHub_trace w g) as [Hf Hlen].
    split; [| by split].
    intros Hloc. unfold parseSource in Hparse. unfold isLocalPath in Hloc.
    by rewrite Hloc in Hparse.
  - rewrite fetchFromUrl_trace. split; [| split; [by repeat constructor | simpl; lia]].
    intros Hloc. unfold parseSource in Hparse. unfold isLocalPath in Hloc.
    by rewrite Hloc in Hparse.
  - pose proof (fetchFromLocal_trace w p) as [Hf Hlen].
    split; [done |]. split; [| done].
    intros Hloc. apply parseSource_local_inv in Hparse. congruence.
Qed.

Lemma fetchSkillFromSource_effects_witness :
  Forall (λ e, isReadFile e = true)
    (trace (fetchSkillFromSource diskWorld "./skills/lint"))
  ∧ Forall (λ e, isFetch e = true)
      (trace (fetchSkillFromSource diskWorld "acme/tools")).
Proof.
  split.
  - apply (fetchSkillFromSource_effects diskWorld "./skills/lint"). reflexivity.
  - apply (fetchSkillFromSource_effects diskWorld "acme/tools"). reflexivity.
Defined.

(** X9: a url source is fetched with exactly one request, whatever the
    answer; a response that is not ok ends the fetch with an error that
    holds its status, and nothing is retried. *)
Theorem fetchSkill_url_single_request (w : World) (u : string) :
  trace (fetchSkill w (url u)) = [EFetch u]
  ∧ (∀ r, fetch w u = Some r → ok r = false →
     fetchSkill w (url u)
     = ([EFetch u], Throw (Error ("Failed to fetch from URL: " +:+ pretty (status r)))))
  ∧ (fetch w u = None →
     fetchSkill w (url u) = ([EFetch u], Throw (TypeError "fetch failed"))).
Proof.
  split; [by rewrite fetchSkill_trace, fetchFromUrl_trace |].
  unfold fetchSkill, fetchFromUrl, await_fetch, mbind, IO_bind, throw.
  split.
  - intros r Hr Hok. by rewrite Hr, Hok.
  - by intros ->.
Qed.

Lemma fetchSkill_url_single_request_witness :
  fetchSkill diskWorld (url "https://example.com/missing.md")
  = ([EFetch "https://example.com/missing.md"],
     Throw (Error "Failed to fetch from URL: 404")).
Proof.
  apply (fetchSkill_url_single_request diskWorld "https://example.com/missing.md")
    with (r := notFound); reflexivity.
Defined.

(** X10: when the first response and the response to the fallback are both
    not ok, the error holds the status of the first response, not that of
    the fallback. *)
Theorem fetchSkill_github_reports_first_status (w : World) (g : GitHubSource)
    (r1 r2 : Response) :
  effectiveBranch g = "main" →
  fetch w (rawUrl g) = Some r1 → ok r1 = false →
  fetch w (masterUrl g) = Some r2 → ok r2 = false →
  fetchSkill w (github g)
  = ([EFetch (rawUrl g); EFetch (masterUrl g)],
     Throw (Error ("Failed to fetch from GitHub: " +:+ pretty (status r1)))).
Proof.
  intros Hb H1 Hok1 H2 Hok2.
  unfold fetchSkill, fetchFromGitHub, await_fetch, mbind, IO_bind, throw.
  by rewrite H1, Hok1, Hb, H2, Hok2.
Qed.

(** X11: a request that is rejected (no response at all) is never retried:
    on the first request the [TypeError] comes out after one request, even
    on the branch [main]; on the fallback request it comes out in place of
    the status of the first response. *)
Theorem fetchSkill_github_rejection (w : World) (g : GitHubSource) :
  (fetch w (rawUrl g) = None →
   fetchSkill w (github g) = ([EFetch (rawUrl g)], Throw (TypeError "fetch failed")))
  ∧ (∀ r, effectiveBranch g = "main" →
     fetch w (rawUrl g) = Some r → ok r = false → fetch w (masterUrl g) = None →
     fetchSkill w (github g)
     = ([EFetch (rawUrl g); EFetch (masterUrl g)], Throw (TypeError "fetch failed"))).
Proof.
  unfold fetchSkill, fetchFromGitHub, await_fetch, mbind, IO_bind, throw.
  split.
  - by intros ->.
  - intros r Hb Hr Hok Hm. by rewrite Hr, Hok, Hb, Hm.
Qed.

Lemma fetchSkill_github_reports_first_status_witness :
  fetchSkill serverErrorWorld (github acmeTools)
  = ([EFetch "https://raw.githubusercontent.com/acme/tools/main/SKILL.md";
      EFetch "https://raw.githubusercontent.com/acme/tools/master/SKILL.md"],
     Throw (Error "Failed to fetch from GitHub: 404")).
Proof.
  apply (fetchSkill_github_reports_first_status serverErrorWorld acmeTools notFound
           {| ok := false; status := 500; text := "" |}); reflexivity.
Defined.

Lemma fetchSkill_github_rejection_witness :
  fetchSkill offlineWorld (github acmeTools)
  = ([EFetch "https://raw.githubusercontent.com/acme/tools/main/SKILL.md"],
     Throw (TypeError "fetch failed")).
Proof.
  apply (fetchSkill_github_rejection offlineWorld acmeTools). reflexivity.
Defined.

(** ** Listing the skills of a repository *)

Lemma tryCatch_ret_outcome {A} (m : IO A) (a : A) :
  outcome (tryCatch m (mret a)) = match outcome m with Ok x => Ok x | Throw _ => Ok a end
  ∧ trace (tryCatch m (mret a)) = trace m.
Proof.
  destruct m as [t [x | e]]; simpl; [done |]. by rewrite app_nil_r.
Qed.

Lemma bind_ok {A B} (f : A → IO B) (t : list Event) (a : A) :
  mbind f ((t, Ok a) : IO A) = ((t ++ trace (f a))%list, outcome (f a)).
Proof. unfold mbind, IO_bind, trace, outcome. by destruct (f a). Qed.

Lemma bind_throw {A B} (f : A → IO B) (t : list Event) (e : JsError) :
  mbind f ((t, Throw e) : IO A) = (t, Throw e).
Proof. reflexivity. Qed.

Section Listing.

Variable api : string → option Api.Response.
Variables owner repo branch : string.

Let good (item : Api.Entry) : bool :=
  isDir item && isSkillDir api owner repo branch (Api.name item).

Let bad (item : Api.Entry) : bool :=
  isDir item && probeThrows api owner repo branch (Api.name item).

Lemma probeDirs_step (item : Api.Entry) (rest : list Api.Entry) (acc : list string) :
  probeDirs api owner repo branch (item :: rest) acc
  = if isDir item then
      match api (dirApiUrl owner repo (Api.name item) branch) with
      | None => ([EFetch (dirApiUrl owner repo (Api.name item) branch)],
                 Throw (TypeError "fetch failed"))
      | Some r =>
          if Api.ok r then
            match Api.json r with
            | None => ([EFetch (dirApiUrl owner repo (Api.name item) branch)],
                       Throw (TypeError "contents is not an array"))
            | Some l =>
                let next :=
                  probeDirs api owner repo branch rest
                    (if existsb (λ f, String.eqb (Api.name f) "SKILL.md") l
                     then (acc ++ [Api.name item])%list else acc) in
                (EFetch (dirApiUrl owner repo (Api.name item) branch) :: trace next,
                 outcome next)
            end
          else
            let next := probeDirs api owner repo branch rest acc in
            (EFetch (dirApiUrl owner repo (Api.name item) branch) :: trace next,
             outcome next)
      end
    else probeDirs api owner repo branch rest acc.
Proof.
  cbn [probeDirs]. destruct (isDir item); [| done].
  unfold await_api. destruct (api _) as [r |]; [| done].
  rewrite bind_ok. destruct (Api.ok r); [| done].
  unfold await_json. destruct (Api.json r) as [l |]; [| done].
  rewrite bind_ok. simpl. by destruct (existsb _ l).
Qed.

Lemma probeDirs_outcome_ok (contents : list Api.Entry) (acc : list string) :
  existsb bad contents = false →
  outcome (probeDirs api owner repo branch contents acc)
  = Ok (acc ++ List.map Api.name (List.filter good contents))%list.
Proof.
  revert acc. induction contents as [|item rest IH]; intros acc.
  - intros _. simpl. by rewrite app_nil_r.
  - cbn [existsb List.filter]. intros [Hitem Hrest]%orb_false_iff.
    rewrite probeDirs_step. unfold bad, good in *. unfold isSkillDir.
    unfold probeThrows in Hitem.
    destruct (isDir item); [| by apply IH]. cbn [andb] in *.
    destruct (api _) as [r |]; [| done].
    destruct (Api.ok r); cbn [andb] in *; [| by apply IH].
    destruct (Api.json r) as [l |]; [| done]. cbn [outcome snd].
    destruct (existsb _ l).
    + rewrite (IH _ Hrest). cbn [List.map]. by rewrite <- app_assoc.
    + by rewrite (IH _ Hrest).
Qed.

Lemma probeDirs_outcome_throw (contents : list Api.Entry) (acc : list string) :
  existsb bad contents = true →
  ∃ e, outcome (probeDirs api owner repo branch contents acc) = Throw e.
Proof.
  revert acc. induction contents as [|item rest IH]; intros acc; [done |].
  cbn [existsb]. rewrite probeDirs_step. unfold bad in *. unfold probeThrows.
  destruct (isDir item); cbn [andb orb]; [| by apply IH].
  destruct (api _) as [r |]; [| eauto].
  destruct (Api.ok r); cbn [andb orb]; [| by apply IH].
  destruct (Api.json r) as [l |]; [| eauto].
  cbn [outcome snd]. intros H. apply IH.
  rewrite bool_decide_eq_true_2 in H by eauto. done.
Qed.

Lemma probeDirs_requests (contents : list Api.Entry) (acc : list string) :
  (List.length (trace (probeDirs api owner repo branch contents acc))
   ≤ List.length (List.filter isDir contents))%nat.
Proof.
  revert acc. induction contents as [|item rest IH]; intros acc; [simpl; lia |].
  rewrite probeDirs_step. cbn [List.filter].
  destruct (isDir item); [| by apply IH].
  destruct (api _) as [r |]; [| simpl; lia].
  destruct (Api.ok r).
  - destruct (Api.json r) as [l |]; [| simpl; lia].
    match goal with
    | |- context [probeDirs _ _ _ _ rest ?a] => specialize (IH a)
    end.
    unfold trace in *. simpl. lia.
  - specialize (IH acc). unfold trace in *. simpl. lia.
Qed.

End Listing.

Lemma listGitHubSkillsRoot_never_throws (api : string → option Api.Response)
    (owner repo branch : string) :
  ∃ names, outcome (listGitHubSkillsRoot api owner repo branch) = Ok names.
Proof.
  unfold listGitHubSkillsRoot.
  match goal with
  | |- context [tryCatch ?m _] =>
      destruct (tryCatch_ret_outcome m []) as [-> _]; destruct (outcome m); eauto
  end.
Qed.

(** X12: [listGitHubSkills] never throws: whatever the API answers, and
    whether requests are rejected or bodies malformed, it ends with a list
    of names. *)
Theorem listGitHubSkills_never_throws (api : string → option Api.Response)
    (owner repo : string) (branch : option string) :
  ∃ names, outcome (listGitHubSkills api owner repo branch) = Ok names.
Proof.
  unfold listGitHubSkills.
  match goal with
  | |- context [tryCatch ?m (mret ?a)] =>
      pose proof (tryCatch_ret_outcome m a) as [Hout _];
      destruct (tryCatch m (mret a)) as [t [step | e]]
  end.
  - rewrite bind_ok. cbn [outcome snd].
    destruct step as [names |]; [by eexists |].
    apply listGitHubSkillsRoot_never_throws.
  - cbn [outcome snd] in Hout.
    match type of Hout with _ = match ?o with _ => _ end => by destruct o end.
Qed.

Lemma listGitHubSkills_skills_ok (api : string → option Api.Response)
    (owner repo : string) (branch : option string) (r : Api.Response) :
  api (skillsApiUrl owner repo (default "main" branch)) = Some r →
  Api.ok r = true →
  listGitHubSkills api owner repo branch
  = ([EFetch (skillsApiUrl owner repo (default "main" branch))],
     Ok (match Api.json r with
         | Some contents => List.map Api.name (List.filter isDir contents)
         | None => []
         end)).
Proof.
  intros Hr Hok. unfold listGitHubSkills, await_api.
  rewrite Hr, bind_ok, Hok. cbn [negb].
  unfold await_json. by destruct (Api.json r).
Qed.

Lemma listGitHubSkills_skills_rejected (api : string → option Api.Response)
    (owner repo : string) (branch : option string) :
  api (skillsApiUrl owner repo (default "main" branch)) = None →
  listGitHubSkills api owner repo branch
  = ([EFetch (skillsApiUrl owner repo (default "main" branch))], Ok []).
Proof. intros Hr. unfold listGitHubSkills, await_api. by rewrite Hr. Qed.

(** X13: when the listing of [skills/] answers ok, the result is the names
    of its directory entries, in their order, after that single request;
    when its body is malformed, or when the request is rejected, the result
    is empty, and the root of the repository is not looked at. *)
Theorem listGitHubSkills_skills_dir (api : string → option Api.Response)
    (owner repo : string) (branch : option string) :
  let u := skillsApiUrl owner repo (default "main" branch) in
  (∀ r, api u = Some r → Api.ok r = true →
     listGitHubSkills api owner repo branch
     = ([EFetch u],
        Ok (match Api.json r with
            | Some contents => List.map Api.name (List.filter isDir contents)
            | None => []
            end)))
  ∧ (api u = None → listGitHubSkills api owner repo branch = ([EFetch u], Ok [])).
Proof.
  intros u. split.
  - intros r Hr Hok. by apply listGitHubSkills_skills_ok.
  - by apply listGitHubSkills_skills_rejected.
Qed.

Lemma listGitHubSkills_skills_dir_witness :
  listGitHubSkills skillsRepoApi "acme" "tools" None
  = ([EFetch "https://api.github.com/repos/acme/tools/contents/skills?ref=main"],
     Ok ["lint"; "review"]).
Proof.
  apply (listGitHubSkills_skills_dir skillsRepoApi "acme" "tools" None)
    with (r := okListing [dirEntry "lint"; fileEntry "README.md"; dirEntry "review"]);
    reflexivity.
Defined.

Lemma listGitHubSkills_to_root (api : string → option Api.Response)
    (owner repo : string) (branch : option string) (r : Api.Response) :
  api (skillsApiUrl owner repo (default "main" branch)) = Some r →
  Api.ok r = false →
  listGitHubSkills api owner repo branch
  = ((EFetch (skillsApiUrl owner repo (default "main" branch))
      :: trace (listGitHubSkillsRoot api owner repo (default "main" branch))),
     outcome (listGitHubSkillsRoot api owner repo (default "main" branch))).
Proof.
  intros Hr Hok. unfold listGitHubSkills, await_api.
  rewrite Hr, bind_ok, Hok. cbn [negb mret IO_ret tryCatch trace fst outcome snd].
  by rewrite bind_ok.
Qed.

Lemma listGitHubSkillsRoot_contents (api : string → option Api.Response)
    (owner repo branch : string) (r : Api.Response) (contents : list Api.Entry) :
  api (rootApiUrl owner repo branch) = Some r → Api.ok r = true →
  Api.json r = Some contents →
  let body :=
    if existsb (λ item, String.eqb (Api.name item) "SKILL.md"
                        && String.eqb (Api.type item) "file") contents
    then (mret [repo] : IO (list string))
    else probeDirs api owner repo branch contents [] in
  listGitHubSkillsRoot api owner repo branch
  = (EFetch (rootApiUrl owner repo branch) :: trace body,
     match outcome body with Ok names => Ok names | Throw _ => Ok [] end).
Proof.
  intros Hr Hok Hjson body. unfold listGitHubSkillsRoot, await_api, await_json.
  rewrite Hr, bind_ok, Hok, Hjson. cbn [negb]. rewrite bind_ok. fold body.
  cbn [app trace fst outcome snd].
  destruct body as [t [names | e]]; cbn; [done |]. by rewrite app_nil_r.
Qed.

(** X14: when [skills/] does not answer ok and the root of the repository
    holds a file [SKILL.md], the repository is one skill: the result is its
    name alone, after two requests, and no directory is probed. *)
Theorem listGitHubSkills_single_skill (api : string → option Api.Response)
    (owner repo : string) (branch : option string) (r1 r2 : Api.Response)
    (contents : list Api.Entry) :
  let b := default "main" branch in
  api (skillsApiUrl owner repo b) = Some r1 → Api.ok r1 = false →
  api (rootApiUrl owner repo b) = Some r2 → Api.ok r2 = true →
  Api.json r2 = Some contents →
  existsb (λ item, String.eqb (Api.name item) "SKILL.md"
                   && String.eqb (Api.type item) "file") contents = true →
  listGitHubSkills api owner repo branch
  = ([EFetch (skillsApiUrl owner repo b); EFetch (rootApiUrl owner repo b)],
     Ok [repo]).
Proof.
  intros b H1 Hok1 H2 Hok2 Hjson Hskill.
  rewrite (listGitHubSkills_to_root api owner repo branch r1 H1 Hok1). fold b.
  rewrite (listGitHubSkillsRoot_contents api owner repo b r2 contents H2 Hok2 Hjson).
  by rewrite Hskill.
Qed.

Lemma listGitHubSkills_single_skill_witness :
  listGitHubSkills singleSkillApi "acme" "tools" None
  = ([EFetch "https://api.github.com/repos/acme/tools/contents/skills?ref=main";
      EFetch "https://api.github.com/repos/acme/tools/contents?ref=main"],
     Ok ["tools"]).
Proof.
  apply (listGitHubSkills_single_skill singleSkillApi "acme" "tools" None
           {| Api.ok := false; Api.json := None |}
           (okListing [fileEntry "SKILL.md"; dirEntry "examples"])
           [fileEntry "SKILL.md"; dirEntry "examples"]); reflexivity.
Defined.

(** X15: when [skills/] does not answer ok and the root holds no file
    [SKILL.md], the directories of the root are probed in order; if no probe
    throws, the result is exactly the directories whose listing answers ok
    and holds an entry named [SKILL.md], in the order of the root listing;
    if one probe throws (a rejected request, or an ok response whose body is
    not an array), the result is empty, the directories found before it
    included. *)
Theorem listGitHubSkills_root_scan (api : string → option Api.Response)
    (owner repo : string) (branch : option string) (r1 r2 : Api.Response)
    (contents : list Api.Entry) :
  let b := default "main" branch in
  api (skillsApiUrl owner repo b) = Some r1 → Api.ok r1 = false →
  api (rootApiUrl owner repo b) = Some r2 → Api.ok r2 = true →
  Api.json r2 = Some contents →
  existsb (λ item, String.eqb (Api.name item) "SKILL.md"
                   && String.eqb (Api.type item) "file") contents = false →
  outcome (listGitHubSkills api owner repo branch)
  = Ok (if existsb (λ item, isDir item
                            && probeThrows api owner repo b (Api.name item)) contents
        then []
        else List.map Api.name
               (List.filter (λ item, isDir item
                                     && isSkillDir api owner repo b (Api.name item))
                  contents)).
Proof.
  intros b H1 Hok1 H2 Hok2 Hjson Hskill.
  rewrite (listGitHubSkills_to_root api owner repo branch r1 H1 Hok1). fold b.
  rewrite (listGitHubSkillsRoot_contents api owner repo b r2 contents H2 Hok2 Hjson).
  rewrite Hskill. cbn [outcome snd].
  destruct (existsb (λ item, isDir item
                             && probeThrows api owner repo b (Api.name item))
              contents) eqn:Hbad.
  - destruct (probeDirs_outcome_throw api owner repo b contents [] Hbad) as [e ->].
    done.
  - by rewrite (probeDirs_outcome_ok api owner repo b contents [] Hbad).
Qed.

Lemma listGitHubSkills_root_scan_witness :
  outcome (listGitHubSkills rootRepoApi "acme" "tools" None) = Ok ["lint"].
Proof.
  apply (listGitHubSkills_root_scan rootRepoApi "acme" "tools" None
           {| Api.ok := false; Api.json := None |}
           (okListing [dirEntry "lint"; fileEntry "README.md"; dirEntry "docs"])
           [dirEntry "lint"; fileEntry "README.md"; dirEntry "docs"]); reflexivity.
Defined.

(** X16: a listing issues at most two requests plus one for each directory
    entry of the root listing. *)
Theorem listGitHubSkills_requests (api : string → option Api.Response)
    (owner repo : string) (branch : option string) :
  (List.length (trace (listGitHubSkills api owner repo branch))
   ≤ 2 + match api (rootApiUrl owner repo (default "main" branch)) with
         | Some r =>
             match Api.json r with
             | Some contents => List.length (List.filter isDir contents)
             | None => 0
             end
         | None => 0
         end)%nat.
Proof.
  set (b := default "main" branch).
  assert (Hroot : (List.length (trace (listGitHubSkillsRoot api owner repo b))
                   ≤ 1 + match api (rootApiUrl owner repo b) with
                         | Some r =>
                             match Api.json r with
                             | Some contents => List.length (List.filter isDir contents)
                             | None => 0
                             end
                         | None => 0
                         end)%nat).
  { destruct (api (rootApiUrl owner repo b)) as [r |] eqn:Hr.
    - destruct (Api.ok r) eqn:Hok.
      + destruct (Api.json r) as [contents |] eqn:Hjson.
        * rewrite (listGitHubSkillsRoot_contents api owner repo b r contents Hr Hok Hjson).
          pose proof (probeDirs_requests api owner repo b contents []) as H.
          destruct (existsb _ contents); unfold trace in *; simpl in *; lia.
        * unfold listGitHubSkillsRoot, await_api, await_json.
          rewrite Hr, bind_ok, Hok, Hjson. simpl. lia.
      + unfold listGitHubSkillsRoot, await_api.
        rewrite Hr, bind_ok, Hok. simpl.
        destruct (Api.json r); lia.
    - unfold listGitHubSkillsRoot, await_api. rewrite Hr. simpl. lia. }
  destruct (api (skillsApiUrl owner repo b)) as [r1 |] eqn:H1.
  - destruct (Api.ok r1) eqn:Hok1.
    + rewrite (listGitHubSkills_skills_ok api owner repo branch r1 H1 Hok1).
      simpl. lia.
    + rewrite (listGitHubSkills_to_root api owner repo branch r1 H1 Hok1). fold b.
      unfold trace in *. simpl in *. lia.
  - rewrite (listGitHubSkills_skills_rejected api owner repo branch H1).
    simpl. lia.
Qed.

(** ** Identifiers of fetched items are not empty *)

Lemma parseSource_repo_truthy (w : World) (s : string) (g : GitHubSource) :
  parseSource w s = Ok (github g) → Js.truthy (repo g) = true.
Proof.
  unfold parseSource.
  destruct (_ || _ || _); [done |].
  destruct (Js.includes s "github.com").
  { destruct (URL_pathname w s) as [pathname |] eqn:Hu;
      [| by unfold parseGitHubUrl; rewrite Hu].
    rewrite (parseGitHubUrl_parts w s pathname Hu).
    pose proof (pathParts_segments pathname) as Hsegs.
    destruct (Js.filterBoolean (Js.split "/" pathname)) as [|o [|r rest]];
      [done | done |].
    do 2 apply Forall_cons in Hsegs as [[? _]%andb_true_iff Hsegs].
    by intros [= <-]. }
  destruct (Js.testOwnerRepo s) eqn:Hor.
  { apply testOwnerRepo_spec in Hor as (o & r & Ho & Hr & ->).
    rewrite (split_app_sep o r (isWord_noSlash o Ho)).
    rewrite (split_noSlash r (isWord_noSlash r Hr)).
    intros [= <-]. cbn [repo lookup list_lookup default from_option].
    by apply andb_true_iff in Hr as [? _]. }
  destruct (Js.testOwnerRepoPath s) eqn:Hop.
  { apply testOwnerRepoPath_spec in Hop
      as (o & r & rest & Ho & Hr & ->).
    rewrite (split_app_sep o _ (isWord_noSlash o Ho)).
    rewrite (split_app_sep r _ (isWord_noSlash r Hr)).
    intros [= <-]. cbn [repo lookup list_lookup default from_option].
    by apply andb_true_iff in Hr as [? _]. }
  by destruct (_ || _).
Qed.

Lemma orElse_truthy (a : option string) (b : string) :
  Js.truthy b = true → Js.truthy (Js.orElse a b) = true.
Proof.
  intros Hb. unfold Js.orElse. destruct a as [s |]; [| done].
  by destruct (Js.truthy s) eqn:Hs.
Qed.

(** X17: an item fetched from a source string that is not a local path has
    an identifier and a name that are not empty. *)
Theorem fetchSkillFromSource_id_not_empty (w : World) (s : string) tr sk :
  fetchSkillFromSource w s = (tr, Ok sk) → isLocalPath s = false →
  Js.truthy (Skill.id sk) = true ∧ Js.truthy (Skill.name sk) = true.
Proof.
  intros Hfetch Hloc.
  destruct (parseSource w s) as [src | e] eqn:Hparse.
  2: { unfold fetchSkillFromSource, liftResult, mbind, IO_bind in Hfetch.
       by rewrite Hparse in Hfetch. }
  rewrite (fetchSkillFromSource_ok w s src Hparse) in Hfetch.
  assert (Hid : Js.truthy (Skill.id sk) = true).
  { apply fetchSkill_id in Hfetch. destruct src as [g | u | p]; simpl in Hfetch.
    - injection Hfetch as <-. apply orElse_truthy.
      by apply (parseSource_repo_truthy w s).
    - destruct (URL_pathname w u); [| done]. injection Hfetch as <-.
      by apply orElse_truthy.
    - apply parseSource_local_inv in Hparse. congruence. }
  split; [done |].
  unfold fetchSkill, mbind, IO_bind, liftResult, mret, IO_ret in Hfetch.
  destruct (match src with
            | github g => fetchFromGitHub w g
            | url u => fetchFromUrl w u
            | local p => fetchFromLocal w p
            end) as [t [c | e]]; [| done].
  destruct (deriveId w src) as [i | e]; [| done].
  injection Hfetch as _ <-. cbn [Skill.name Skill.id] in *.
  by apply orElse_truthy.
Qed.

Lemma fetchSkillFromSource_id_not_empty_witness :
  Js.truthy "tools" = true ∧ Js.truthy "tools" = true.
Proof.
  apply (fetchSkillFromSource_id_not_empty acmeMasterWorld "acme/tools"
           [EFetch "https://raw.githubusercontent.com/acme/tools/main/SKILL.md";
            EFetch "https://raw.githubusercontent.com/acme/tools/master/SKILL.md"]
           {| Skill.id := "tools"; Skill.name := "tools"; Skill.description := "";
              Skill.content := "# tools"; Skill.source := github acmeTools |});
    vm_compute; reflexivity.
Defined.

(** ** The hint of an item *)

(** X18: the hint shown beside an item never exceeds 63 code units; it is
    the description itself when that has at most 60 code units, and
    otherwise the first 60 code units of the description followed by three
    dots. *)
Theorem itemHint_bounds (description : list N) :
  (List.length (itemHint description) ≤ 63)%nat
  ∧ ((List.length description ≤ 60)%nat → itemHint description = description)
  ∧ ((60 < List.length description)%nat →
     List.length (itemHint description) = 63%nat
     ∧ itemHint description = (List.firstn 60 description ++ [46; 46; 46]%N)%list
     ∧ List.length (List.firstn 60 description) = 60%nat
     ∧ description
       = (List.firstn 60 description ++ List.skipn 60 description)%list).
Proof.
  unfold itemHint. split; [| split].
  - rewrite List.length_app, List.length_firstn.
    destruct (Nat.ltb 60 (List.length description)); cbn [List.length]; lia.
  - intros H. rewrite List.firstn_all2 by done.
    apply Nat.ltb_ge in H. rewrite H. apply app_nil_r.
  - intros H. pose proof H as Hlt. apply Nat.ltb_lt in Hlt. rewrite Hlt.
    split; [| split; [done | split]].
    + rewrite List.length_app, List.length_firstn. cbn [List.length]. lia.
    + rewrite List.length_firstn. lia.
    + by rewrite List.firstn_skipn.
Qed.

Lemma itemHint_bounds_witness :
  itemHint (replicate 50 233%N) = replicate 50 233%N.
Proof.
  apply (proj1 (proj2 (itemHint_bounds (replicate 50 233%N)))).
  rewrite length_replicate. lia.
Defined.

(** ** The bridge command and the interactive flow *)

Section CommandFacts.

Variable CatalogItem : Type.
Variable itemName : CatalogItem → string.
Variable AssistantConfig : Type.
Variable assistantId : AssistantConfig → string.
Variable assistantName : AssistantConfig → string.
Variable getAllAssistants : list AssistantConfig.
Variable displayNameLower : ContentType → string.
Variable generateBridgeFiles :
  gmap string string → list AssistantConfig → list BridgeFile.
Variable confirm : string → Answer bool.
Variable selectContentTypes : Answer (list ContentType).
Variable selectItemsAnswer : list CatalogItem → ContentType → Answer (list CatalogItem).
Variable selectScope : Answer InstallScope.
Variable detectInstalledAssistants : list AssistantConfig.

Local Abbreviation bridge :=
  (cmdBridge AssistantConfig assistantId getAllAssistants generateBridgeFiles
     confirm detectInstalledAssistants).

Local Abbreviation interactive :=
  (runInteractiveInstall CatalogItem itemName AssistantConfig assistantName
     getAllAssistants displayNameLower confirm selectContentTypes
     selectItemsAnswer selectScope detectInstalledAssistants).

Local Abbreviation selectAll :=
  (selectAllItems CatalogItem displayNameLower selectItemsAnswer).

(** X19: the bridge command changes no file that exists, unless the user,
    without [--yes], answers yes to the question about overwriting; with
    [--yes] it never overwrites.  And when the user does not confirm the
    generation, nothing is written at all. *)
Theorem cmdBridge_keeps_existing (options : Cli.options) (cwd : string)
    (fs : gmap string string) :
  (Cli.yes options = true ∨ confirm "Overwrite existing files?" ≠ Answered true →
   ∀ p, is_Some (fs !! p) → (bridge options cwd fs).1 !! p = fs !! p)
  ∧ (Cli.yes options = false → (∀ m, confirm m ≠ Answered true) →
     (bridge options cwd fs).1 = fs).
Proof.
  unfold cmdBridge. split.
  - intros Hno p Hp.
    destruct (Nat.eqb (List.length _) 0); [done |].
    destruct (Nat.eqb (List.length _) 0); [done |].
    destruct (negb (Cli.yes options) && _); [done |].
    assert (Hover : (if Cli.yes options then false
                     else confirmed (confirm "Overwrite existing files?")) = false).
    { destruct Hno as [-> | Hno]; [done |]. destruct (Cli.yes options); [done |].
      destruct (confirm "Overwrite existing files?") as [[] |]; done. }
    rewrite Hover.
    pose proof (writeBridgeFiles_keeps_disk
                  (generateBridgeFiles fs
                     (if Nat.ltb 0 (List.length (Cli.agents options))
                      then List.filter
                             (λ a, existsb (String.eqb (assistantId a))
                                     (Cli.agents options)) getAllAssistants
                      else detectInstalledAssistants)) cwd p fs Hp) as H.
    by destruct (writeBridgeFiles _ cwd false fs).
  - intros Hyes Hnever.
    destruct (Nat.eqb (List.length _) 0); [done |].
    destruct (Nat.eqb (List.length _) 0); [done |].
    rewrite Hyes. cbn [negb andb].
    assert (Hc : ∀ m, confirmed (confirm m) = false).
    { intros m. specialize (Hnever m). by destruct (confirm m) as [[] |]. }
    by rewrite Hc.
Qed.

Lemma selectAllItems_result (catalog : ContentType → option (list CatalogItem))
    (contentTypes : list ContentType) (acc l : list CatalogItem) (out : list Out) :
  selectAll catalog contentTypes acc = (Some l, out) →
  l = (acc ++ flat_map
                (λ ct, match selectItemsAnswer (default [] (catalog ct)) ct with
                       | Answered selected =>
                           if Nat.eqb (List.length (default [] (catalog ct))) 0
                           then [] else selected
                       | Cancelled => []
                       end) contentTypes)%list.
Proof.
  revert acc l out. induction contentTypes as [|ct rest IH]; intros acc l out.
  - simpl. intros [= <- _]. by rewrite app_nil_r.
  - cbn [selectAllItems flat_map].
    destruct (default [] (catalog ct)) as [|item available] eqn:Hav.
    + cbn [List.length Nat.eqb].
      destruct (selectAll catalog rest acc) as [r out'] eqn:Hrest.
      intros [= -> _]. rewrite (IH acc l out' Hrest).
      by destruct (selectItemsAnswer [] ct).
    + cbn [List.length Nat.eqb].
      destruct (selectItemsAnswer (item :: available) ct) as [selected |] eqn:Hsel;
        [| done].
      intros Hrest. rewrite (IH _ l out Hrest). by rewrite <- app_assoc.
Qed.

Lemma selectAllItems_answered (catalog : ContentType → option (list CatalogItem))
    (contentTypes : list ContentType) (acc l : list CatalogItem) (out : list Out) :
  selectAll catalog contentTypes acc = (Some l, out) →
  Forall (λ ct, default [] (catalog ct) ≠ [] →
                ∃ selected, selectItemsAnswer (default [] (catalog ct)) ct
                            = Answered selected) contentTypes.
Proof.
  revert acc l out. induction contentTypes as [|ct rest IH]; intros acc l out.
  - intros _. constructor.
  - cbn [selectAllItems].
    destruct (default [] (catalog ct)) as [|item available] eqn:Hav.
    + cbn [List.length Nat.eqb].
      destruct (selectAll catalog rest acc) as [r out'] eqn:Hrest.
      intros [= -> _]. constructor; [by rewrite Hav | by eapply IH].
    + cbn [List.length Nat.eqb].
      destruct (selectItemsAnswer (item :: available) ct) as [selected |] eqn:Hsel;
        [| done].
      intros Hrest. constructor; [| by eapply IH].
      rewrite Hav. intros _. by exists selected.
Qed.

(** X20: when the interactive flow returns a plan, the user confirmed it
    and cancelled no question: the selection of content types, every
    selection of items that was shown (one for each chosen type with
    something available), and the choice of scope were all answered; the
    plan holds at least one item, and its items are the selections of the
    user, content type after content type, in the order the types were
    chosen; its method is always [symlink]; its scope is the one the user
    chose; its assistants are the detected ones, or the first of the
    registry when none is detected. *)
Theorem runInteractiveInstall_plan
    (catalog : ContentType → option (list CatalogItem))
    (options : InstallOptions CatalogItem AssistantConfig) (out : list Out) :
  interactive catalog = (Some options, out) →
  confirm "Proceed with installation?" = Answered true
  ∧ selectScope = Answered (scope _ _ options)
  ∧ method _ _ options = symlink
  ∧ items _ _ options ≠ []
  ∧ assistants _ _ options
    = (if Nat.ltb 0 (List.length detectInstalledAssistants)
       then detectInstalledAssistants else List.firstn 1 getAllAssistants)
  ∧ ∃ contentTypes,
      selectContentTypes = Answered contentTypes
      ∧ Forall (λ ct, default [] (catalog ct) ≠ [] →
                      ∃ selected, selectItemsAnswer (default [] (catalog ct)) ct
                                  = Answered selected) contentTypes
      ∧ items _ _ options
        = flat_map
            (λ ct, match selectItemsAnswer (default [] (catalog ct)) ct with
                   | Answered selected =>
                       if Nat.eqb (List.length (default [] (catalog ct))) 0
                       then [] else selected
                   | Cancelled => []
                   end) contentTypes.
Proof.
  unfold runInteractiveInstall.
  destruct selectContentTypes as [contentTypes |]; [| done].
  destruct (selectAll catalog contentTypes []) as [[l |] out'] eqn:Hsel; [| done].
  pose proof (selectAllItems_answered _ _ _ _ _ Hsel) as Hall.
  apply selectAllItems_result in Hsel as Hl. cbn [app] in Hl.
  destruct (Nat.eqb (List.length l) 0) eqn:Hlen; [done |].
  destruct selectScope as [sc |]; [| done].
  unfold confirmInstall.
  destruct (confirm "Proceed with installation?") as [[] |] eqn:Hc;
    cbn [confirmed]; [| done | done].
  intros [= <- _]. cbn [scope method items assistants].
  split; [done |]. split; [done |]. split; [done |].
  split; [by intros ->|]. split; [done |].
  exists contentTypes. by split.
Qed.

End CommandFacts.

Lemma cmdBridge_keeps_existing_witness :
  (cmdBridge string id ["claude"; "gemini"] (λ _ _, [claudeBridge; geminiBridge])
     (λ _, Cancelled) ["claude"] {| Cli.agents := []; Cli.yes := true |}
     "/home/user/project" userDisk).1 !! "/home/user/project/CLAUDE.md"
  = Some "my own notes".
Proof.
  apply (cmdBridge_keeps_existing string id ["claude"; "gemini"]
           (λ _ _, [claudeBridge; geminiBridge]) (λ _, Cancelled) ["claude"]
           {| Cli.agents := []; Cli.yes := true |} "/home/user/project" userDisk).
  - by left.
  - by exists "my own notes".
Defined.

Lemma runInteractiveInstall_plan_witness :
  ["clean-code"] ≠ []
  ∧ (Answered project : Answer InstallScope) = Answered project.
Proof.
  pose proof (runInteractiveInstall_plan string id string id ["claude"]
                (λ _, "skills") (λ _, Answered true) (Answered [skills])
                (λ available _, Answered (List.firstn 1 available))
                (Answered project) []
                (λ ct, match ct with skills => Some ["clean-code"; "modern-react"]
                                | _ => None end)
                {| items := ["clean-code"]; assistants := ["claude"];
                   scope := project; method := symlink |}
                _ eq_refl) as (_ & Hscope & _ & Hitems & _).
  split; [exact Hitems | exact Hscope].
Defined.
